(** * Holley EFI datalog decoder: decompression, format detection, row decoding

    A shallow embedding of [holley_parser/dlz_decompressor.py] and
    [holley_parser/universal_dl_parser.py].  Buffers are lists of bytes,
    Python integers are [Z], Python exceptions are explicit outcomes, and
    the [while] loop of the run-length decoder carries fuel. *)

From Stdlib Require Import ZArith List Lia Bool String Ascii FinFun.
From Stdlib Require Import Permutation.
From Stdlib Require Import Strings.Byte.
From Stdlib Require Import Decimal DecimalString DecimalZ.
From Stdlib Require Hexadecimal.
From Stdlib Require Import Floats.SpecFloat.
Import ListNotations.
Open Scope Z_scope.

(** ** A small model of the Python values and effects the code uses *)

Module Py.

Definition bytes := list byte.

Inductive exn : Type :=
| IndexError
| StructError
| ValueError (msg : string).

(** What running a piece of code gives: a value, a raised exception, or
    (for the [while] loop only) exhausted fuel. *)
Inductive outcome (A : Type) : Type :=
| Ret (a : A)
| Raise (e : exn)
| OutOfFuel.
Arguments Ret {A} a.
Arguments Raise {A} e.
Arguments OutOfFuel {A}.

Definition bind {A B} (m : outcome A) (k : A -> outcome B) : outcome B :=
  match m with
  | Ret a => k a
  | Raise e => Raise e
  | OutOfFuel => OutOfFuel
  end.

(** [len(data)] *)
Definition len {A} (l : list A) : Z := Z.of_nat (List.length l).

(** Normalisation of one slice bound: a negative bound counts from the
    end, and the result is clamped to [0, len]. *)
Definition clamp (n i : Z) : Z :=
  if i <? 0 then Z.max 0 (i + n) else Z.min i n.

(** [data[lo:hi]] *)
Definition slice {A} (data : list A) (lo hi : Z) : list A :=
  let l := clamp (len data) lo in
  let h := clamp (len data) hi in
  firstn (Z.to_nat (h - l)) (skipn (Z.to_nat l) data).

(** [data[i]] *)
Definition getitem {A} (data : list A) (i : Z) : outcome A :=
  let j := if i <? 0 then i + len data else i in
  if j <? 0 then Raise IndexError
  else match nth_error data (Z.to_nat j) with
       | Some x => Ret x
       | None => Raise IndexError
       end.

(** [range(start, stop, step)] for a positive step *)
Definition range (start stop step : Z) : list Z :=
  map (fun k => start + Z.of_nat k * step)
      (seq 0 (Z.to_nat ((stop - start + step - 1) / step))).

(** The integer value of a byte *)
Definition int_of_byte (b : byte) : Z := Z.of_N (Byte.to_N b).

End Py.

Import Py.

Declare Scope py_scope.
Delimit Scope py_scope with py.
Notation "'let!' x ':=' m 'in' k" := (bind m (fun x => k))
  (at level 10, x name, m at level 100, k at level 200) : py_scope.
Open Scope py_scope.

(** ** dlz_decompressor.py *)

(** [_byte_swap]: one pass over [range(0, len(data), 4)]; a chunk of
    exactly four bytes is appended reversed, a shorter one as it is. *)
Definition _byte_swap (data : bytes) : bytes :=
  fold_left
    (fun result i =>
       let chunk := slice data i (i + 4) in
       match chunk with
       | [c0; c1; c2; c3] => result ++ [c3; c2; c1; c0]
       | _ => result ++ chunk
       end)
    (range 0 (len data) 4) [].

(** The loop of [_rle_decompress]; [i] and [result] are the loop state. *)
Fixpoint rle_loop (fuel : nat) (data : bytes) (length i : Z) (result : bytes)
  : outcome bytes :=
  if i <? length then
    match fuel with
    | O => OutOfFuel
    | S fuel' =>
        let! byte := getitem data i in
        let i := i + 1 in
        if Byte.eqb byte xff then
          if i + 1 >=? length then Ret (result ++ [byte])
          else
            let! count := getitem data i in
            let! value := getitem data (i + 1) in
            let i := i + 2 in
            if int_of_byte count =? 0
            then rle_loop fuel' data length i (result ++ [xff])
            else rle_loop fuel' data length i
                   (result ++ repeat value (Z.to_nat (int_of_byte count)))
        else rle_loop fuel' data length i (result ++ [byte])
    end
  else Ret result.

(** Every iteration advances [i] by at least one, so [len(data)]
    iterations are enough. *)
Definition _rle_decompress (data : bytes) : outcome bytes :=
  rle_loop (List.length data) data (len data) 0 [].

Definition decompress_dlz (dlz_data : bytes) : outcome bytes :=
  let swapped := _byte_swap dlz_data in
  let! decompressed := _rle_decompress swapped in
  let result := _byte_swap decompressed in
  Ret result.

(** *** Reference definitions, written from the specification's words *)

(** Specification 4.1: every group of four consecutive bytes is reversed,
    a trailing group shorter than four bytes is copied unchanged. *)
Fixpoint byteswap_spec (x : bytes) : bytes :=
  match x with
  | a :: b :: c :: d :: rest => d :: c :: b :: a :: byteswap_spec rest
  | short => short
  end.

(** Specification 4.2: a byte other than the marker is copied; a marker
    with two bytes after it is a group [0xFF, COUNT, VALUE]; a marker with
    fewer than two bytes after it is emitted alone and the scan stops. *)
Fixpoint rle_spec (x : bytes) : bytes :=
  match x with
  | [] => []
  | b :: rest =>
      if Byte.eqb b xff then
        match rest with
        | count :: value :: rest' =>
            (if int_of_byte count =? 0 then [xff]
             else repeat value (Z.to_nat (int_of_byte count)))
            ++ rle_spec rest'
        | _ => [xff]
        end
      else b :: rle_spec rest
  end.

Definition marker_free (x : bytes) : Prop := ~ In xff x.

(** ** struct.unpack and Python floats *)

(** [struct.unpack('<I', b)[0]]: exactly four bytes, least significant
    first; any other length raises [struct.error]. *)
Definition unpack_I (b : bytes) : outcome Z :=
  match b with
  | [b0; b1; b2; b3] =>
      Ret (int_of_byte b0 + 256 * int_of_byte b1
           + 65536 * int_of_byte b2 + 16777216 * int_of_byte b3)
  | _ => Raise StructError
  end.

(** The IEEE-754 binary32 value with bit pattern [w]: sign bit 31, biased
    exponent in bits 30..23, fraction in bits 22..0.  A finite value is
    [(-1)^s * m * 2^e]. *)
Definition float32_of_bits (w : Z) : spec_float :=
  let s := Z.testbit w 31 in
  let e := Z.land (Z.shiftr w 23) 255 in
  let m := Z.land w 8388607 in
  if e =? 0 then
    if m =? 0 then S754_zero s else S754_finite s (Z.to_pos m) (-149)
  else if e =? 255 then
    if m =? 0 then S754_infinity s else S754_nan
  else S754_finite s (Z.to_pos (m + 8388608)) (e - 150).

(** [struct.unpack('<f', b)[0]].  Python holds the result as a double,
    which represents every binary32 value exactly. *)
Definition unpack_f (b : bytes) : outcome spec_float :=
  let! w := unpack_I b in
  Ret (float32_of_bits w).

(** [np.nan] *)
Definition np_nan : spec_float := S754_nan.

(** Python compares a float with an integer by their exact values; every
    comparison with a NaN is false. *)
Definition float_compare_int (f : spec_float) (n : Z) : option comparison :=
  match f with
  | S754_nan => None
  | S754_zero _ => Some (0 ?= n)
  | S754_infinity s => Some (if s then Lt else Gt)
  | S754_finite s m e =>
      let v := if s then Z.neg m else Z.pos m in
      Some (if 0 <=? e then v * 2 ^ e ?= n else v ?= n * 2 ^ (- e))
  end.

(** [f < n] *)
Definition float_lt_int (f : spec_float) (n : Z) : bool :=
  match float_compare_int f n with Some Lt => true | _ => false end.

(** [f <= n] *)
Definition float_le_int (f : spec_float) (n : Z) : bool :=
  match float_compare_int f n with Some Lt | Some Eq => true | _ => false end.

(** [n < f] *)
Definition int_lt_float (n : Z) (f : spec_float) : bool :=
  match float_compare_int f n with Some Gt => true | _ => false end.

(** [n <= f] *)
Definition int_le_float (n : Z) (f : spec_float) : bool :=
  match float_compare_int f n with Some Gt | Some Eq => true | _ => false end.

(** [str(n)] *)
Definition str (n : Z) : string := NilEmpty.string_of_int (Z.to_int n).

(** [f'{n:03d}']: sign-aware zero padding to width three. *)
Definition format_03d (n : Z) : string :=
  let digits := str (Z.abs n) in
  let sign := if n <? 0 then "-"%string else EmptyString in
  let width := (String.length sign + String.length digits)%nat in
  sign ++ string_of_list_ascii (repeat "0"%char (3 - width)) ++ digits.

(** A [for] loop whose body may [return]: the first iteration that
    returns decides; [None] when the loop runs to its end. *)
Fixpoint for_return {A B} (l : list A) (body : A -> option B) : option B :=
  match l with
  | [] => None
  | x :: l' =>
      match body x with
      | Some r => Some r
      | None => for_return l' body
      end
  end.

(** A [for] loop that updates a state and may raise. *)
Fixpoint for_each {S A} (l : list A) (s : S) (body : S -> A -> outcome S)
  : outcome S :=
  match l with
  | [] => Ret s
  | x :: l' => let! s' := body s x in for_each l' s' body
  end.

(** [try: ... except: pass] around a block that either returns from the
    enclosing function ([Some]) or falls through ([None]). *)
Definition try_pass {B} (block : outcome (option B)) : option B :=
  match block with
  | Ret r => r
  | _ => None
  end.

(** A Python [dict] with string keys, in insertion order; [d[k] = v]. *)
Fixpoint dict_set {V} (d : list (string * V)) (k : string) (v : V)
  : list (string * V) :=
  match d with
  | [] => [(k, v)]
  | (k', v') :: d' =>
      if String.eqb k' k then (k, v) :: d' else (k', v') :: dict_set d' k v
  end.

(** ** universal_dl_parser.py *)

Definition MAGIC_V3 : Z := 0x0095365F.
Definition MAGIC_V5_V6 : Z := 0x0085F41F.

Definition VERSION_V3_OLD : Z := 2.
Definition VERSION_V3 : Z := 3.
Definition VERSION_V4 : Z := 4.
Definition VERSION_V5 : Z := 5.
Definition VERSION_V6 : Z := 6.

Definition V6_DATA_START : Z := 16456.
Definition V3_DATA_START_RANGE : Z * Z := (1000, 5000).

(** The dictionary the detection functions return. *)
Record format_info : Type := {
  version : string;
  version_field : Z;
  magic : Z;
  floats_per_row : Z;
  bytes_per_row : Z;
  data_start : Z;
  num_rows : Z;
  interleaved : bool
}.

(** One iteration of the scan of [_detect_v3_format]. *)
Definition _detect_v3_candidate (dl_data : bytes) (field_08 : Z)
    (data_start : Z) : option format_info :=
  let FLOATS_PER_ROW := 516 in
  let BYTES_PER_ROW := FLOATS_PER_ROW * 4 in
  let data_size := len dl_data - data_start in
  if data_size mod BYTES_PER_ROW <? 100 then
    let num_rows := data_size / BYTES_PER_ROW in
    try_pass (
      let offset := data_start + 10 * 4 in
      let! val := unpack_f (slice dl_data offset (offset + 4)) in
      if int_le_float 0 (SFabs val) && float_lt_int (SFabs val) 50000 then
        Ret (Some {| version := "V3";
                     version_field := field_08;
                     magic := MAGIC_V3;
                     floats_per_row := FLOATS_PER_ROW;
                     bytes_per_row := BYTES_PER_ROW;
                     data_start := data_start;
                     num_rows := num_rows;
                     interleaved := false |})
      else Ret None)
  else None.

Definition _detect_v3_format (dl_data : bytes) (field_08 : Z)
  : option format_info :=
  for_return
    (range (fst V3_DATA_START_RANGE) (snd V3_DATA_START_RANGE) 100)
    (_detect_v3_candidate dl_data field_08).

(** One iteration of the scan of [_detect_v5_v6_heuristic]. *)
Definition _detect_v5_v6_candidate (dl_data : bytes) (field_08 : Z)
    (search_offset : Z) : option format_info :=
  let FLOATS_PER_ROW := 1030 in
  let BYTES_PER_ROW := FLOATS_PER_ROW * 4 in
  try_pass (
    let! val := unpack_f (slice dl_data search_offset (search_offset + 4)) in
    if int_lt_float 300 val && float_lt_int val 10000 then
      let potential_data_start := search_offset - 4 * 4 in
      let data_size := len dl_data - potential_data_start in
      let remainder := data_size mod BYTES_PER_ROW in
      if remainder <? 100 then
        let num_rows := data_size / BYTES_PER_ROW in
        let tps_offset := potential_data_start + 66 * 4 in
        if tps_offset + 4 <=? len dl_data then
          let! tps := unpack_f (slice dl_data tps_offset (tps_offset + 4)) in
          if int_le_float 0 tps && float_le_int tps 100 then
            let version :=
              if field_08 >=? 4 then ("V" ++ str field_08)%string
              else "V5/V6"%string in
            Ret (Some {| version := version;
                         version_field := field_08;
                         magic := MAGIC_V5_V6;
                         floats_per_row := FLOATS_PER_ROW;
                         bytes_per_row := BYTES_PER_ROW;
                         data_start := potential_data_start;
                         num_rows := num_rows;
                         interleaved := true |})
          else Ret None
        else Ret None
      else Ret None
    else Ret None).

Definition _detect_v5_v6_heuristic (dl_data : bytes) (field_08 : Z)
  : option format_info :=
  for_return (range 15000 18000 4) (_detect_v5_v6_candidate dl_data field_08).

(** The text of the [ValueError] raised for version indicator 5. *)
Definition v5_message (field_08 : Z) : string :=
  ("V5 format detected (field_08=" ++ str field_08 ++ "). "
   ++ "V5 files use sparse storage and cannot be parsed directly. "
   ++ "Please open this file in Holley EFI software first - it will "
   ++ "automatically convert to V6 format (.V6.dl) which can be parsed."
  )%string.

(** [Ret None] is the Python [None], also where the V6 branch falls off
    the end of the function after a failed validation. *)
Definition _detect_v5_v6_format (dl_data : bytes) (field_08 : Z)
  : outcome (option format_info) :=
  let FLOATS_PER_ROW := 1030 in
  let BYTES_PER_ROW := FLOATS_PER_ROW * 4 in
  if field_08 =? VERSION_V6 then
    let data_start := V6_DATA_START in
    let data_size := len dl_data - data_start in
    let num_rows := data_size / BYTES_PER_ROW in
    let remainder := data_size mod BYTES_PER_ROW in
    if (num_rows >? 0) && (remainder <? 100) then
      Ret (Some {| version := "V6";
                   version_field := field_08;
                   magic := MAGIC_V5_V6;
                   floats_per_row := FLOATS_PER_ROW;
                   bytes_per_row := BYTES_PER_ROW;
                   data_start := data_start;
                   num_rows := num_rows;
                   interleaved := true |})
    else Ret None
  else if field_08 =? VERSION_V5 then
    Raise (ValueError (v5_message field_08))
  else
    Ret (_detect_v5_v6_heuristic dl_data field_08).

Definition detect_format (dl_data : bytes) : outcome (option format_info) :=
  if len dl_data <? 32 then Ret None
  else
    let! magic := unpack_I (slice dl_data 0 4) in
    let! field_08 := unpack_I (slice dl_data 8 12) in
    if magic =? MAGIC_V3 then Ret (_detect_v3_format dl_data field_08)
    else if magic =? MAGIC_V5_V6 then _detect_v5_v6_format dl_data field_08
    else Ret None.

(** A constructed [UniversalDLParser]; [dl_path_name] is
    [self.dl_path.name], [dl_data] the content read from the file. *)
Record UniversalDLParser : Type := {
  dl_path_name : string;
  dl_data : bytes;
  self_format_info : format_info
}.

(** [UniversalDLParser.__init__], given the file's name and content. *)
Definition __init__ (name : string) (data : bytes)
  : outcome UniversalDLParser :=
  let! info := detect_format data in
  match info with
  | None => Raise (ValueError ("Unknown DL format: " ++ name)%string)
  | Some info =>
      Ret {| dl_path_name := name; dl_data := data; self_format_info := info |}
  end.

(** The [DataFrame] built from [data_dict]: named columns in insertion
    order, each a list of floats. *)
Definition DataFrame : Type := list (string * list spec_float).

Definition col_name (idx : Z) : string := ("Param_" ++ format_03d idx)%string.

Definition _parse_non_interleaved (dl_data : bytes)
    (data_start bytes_per_row num_rows : Z) : outcome DataFrame :=
  let floats_per_row := bytes_per_row / 4 in
  for_each (range 0 floats_per_row 1) []
    (fun data_dict col_idx =>
       let col_name := col_name col_idx in
       let! col_data :=
         for_each (range 0 num_rows 1) []
           (fun col_data row_idx =>
              let row_offset := data_start + row_idx * bytes_per_row in
              let col_offset := col_idx * 4 in
              let offset := row_offset + col_offset in
              if offset + 4 <=? len dl_data then
                let! value := unpack_f (slice dl_data offset (offset + 4)) in
                Ret (col_data ++ [value])
              else Ret (col_data ++ [np_nan])) in
       Ret (dict_set data_dict col_name col_data)).

Definition _parse_interleaved (dl_data : bytes)
    (data_start bytes_per_row num_rows : Z) : outcome DataFrame :=
  let num_columns := 516 in
  for_each (range 0 num_columns 1) []
    (fun data_dict csv_col_idx =>
       let dl_position := csv_col_idx * 2 in
       let col_name := col_name csv_col_idx in
       let! col_data :=
         for_each (range 0 num_rows 1) []
           (fun col_data row_idx =>
              let row_offset := data_start + row_idx * bytes_per_row in
              let col_offset := dl_position * 4 in
              let offset := row_offset + col_offset in
              if offset + 4 <=? len dl_data then
                let! value := unpack_f (slice dl_data offset (offset + 4)) in
                Ret (col_data ++ [value])
              else Ret (col_data ++ [np_nan])) in
       Ret (dict_set data_dict col_name col_data)).

(** [UniversalDLParser.parse].  A constructed parser always holds a
    descriptor, so the "Cannot parse" guard never fires; the progress
    lines the method prints are not modelled. *)
Definition parse (self : UniversalDLParser) : outcome DataFrame :=
  let info := self_format_info self in
  let data_start := data_start info in
  let bytes_per_row := bytes_per_row info in
  let num_rows := num_rows info in
  let interleaved := interleaved info in
  if interleaved
  then _parse_interleaved (dl_data self) data_start bytes_per_row num_rows
  else _parse_non_interleaved (dl_data self) data_start bytes_per_row num_rows.

(** Construction followed by [parse], as [main] and the package's usage
    example do. *)
Definition parse_file (name : string) (data : bytes) : outcome DataFrame :=
  let! parser := __init__ name data in
  parse parser.

(** The table cell in row [r] of the [c]-th column. *)
Definition df_cell (df : DataFrame) (r c : Z) : option spec_float :=
  if (r <? 0) || (c <? 0) then None
  else match nth_error df (Z.to_nat c) with
       | Some (_, col) => nth_error col (Z.to_nat r)
       | None => None
       end.

(** The unsigned 32-bit little-endian integer stored in the four bytes at
    a non-negative [offset], when the buffer has them. *)
Definition le32_at (dl_data : bytes) (offset : Z) : option Z :=
  match skipn (Z.to_nat offset) dl_data with
  | b0 :: b1 :: b2 :: b3 :: _ =>
      Some (int_of_byte b0 + 256 * int_of_byte b1
            + 65536 * int_of_byte b2 + 16777216 * int_of_byte b3)
  | _ => None
  end.

(** The little-endian binary32 float stored there. *)
Definition float32_at (dl_data : bytes) (offset : Z) : option spec_float :=
  option_map float32_of_bits (le32_at dl_data offset).

(** The two checks of the Variant A scan at a candidate offset, as the
    specification words them: the bytes after the candidate, modulo the
    stride of 516 * 4, are under the tolerance of 100, and the float at
    slot 10 of the candidate row is readable and of magnitude below
    50000. *)
Definition v3_checks (dl_data : bytes) (candidate : Z) : Prop :=
  (len dl_data - candidate) mod (516 * 4) < 100
  /\ exists val,
       float32_at dl_data (candidate + 10 * 4) = Some val
       /\ int_le_float 0 (SFabs val) = true
       /\ float_lt_int (SFabs val) 50000 = true.

(** The candidate offsets of the Variant A scan. *)
Definition v3_window (candidate : Z) : Prop :=
  exists k, 0 <= k < 40 /\ candidate = 1000 + 100 * k.

(** ** Sample buffers *)

(** A 32-byte header: magic at offset 0, version indicator at offset 8,
    both little-endian, every other byte zero. *)
Definition header_v6 : bytes :=
  [x1f; xf4; x85; x00; x00; x00; x00; x00; x06; x00; x00; x00]
  ++ repeat x00 20.

Definition header_v5 : bytes :=
  [x1f; xf4; x85; x00; x00; x00; x00; x00; x05; x00; x00; x00]
  ++ repeat x00 20.

Definition header_v3 : bytes :=
  [x5f; x36; x95; x00; x00; x00; x00; x00; x03; x00; x00; x00]
  ++ repeat x00 20.

(** A 32-byte buffer with neither known magic. *)
Definition header_unknown : bytes := repeat x00 32.

(** [header] followed by zero bytes up to a total length of [total]. *)
Definition zero_padded (header : bytes) (total : Z) : bytes :=
  header ++ repeat x00 (Z.to_nat (total - len header)).

(** The value the row loop of both decoders appends for a byte offset:
    the float stored there when its four bytes are inside the buffer,
    [np.nan] otherwise. *)
Definition cell_at (dl_data : bytes) (offset : Z) : spec_float :=
  if offset + 4 <=? len dl_data then
    match float32_at dl_data offset with
    | Some value => value
    | None => np_nan
    end
  else np_nan.

(** Reading a zero-padded decimal back. *)
Definition parse_03d (s : string) : option Z :=
  option_map Z.of_uint (NilEmpty.uint_of_string s).

(** Both decoders produce one table shape: column [c] holds, for each row
    [r], the cell at byte [data_start + r * bytes_per_row + pos c * 4]. *)
Definition table_of (dl_data : bytes) (data_start bytes_per_row num_rows : Z)
    (pos : Z -> Z) (columns : Z) : DataFrame :=
  map (fun c =>
         (col_name c,
          map (fun r => cell_at dl_data (data_start + r * bytes_per_row
                                         + pos c * 4))
              (range 0 num_rows 1)))
      (range 0 columns 1).

(** A 12-byte buffer of three floats, 2500.0, 37.5 and 1.0, and a parser
    that reads it as rows of two contiguous floats from offset 0: the second
    row is cut short. *)
Definition three_floats : bytes :=
  [x00; x40; x1c; x45; x00; x00; x16; x42; x00; x00; x80; x3f].

Definition two_by_two : UniversalDLParser :=
  {| dl_path_name := "run.dl";
     dl_data := three_floats;
     self_format_info :=
       {| version := "V3"; version_field := 3; magic := MAGIC_V3;
          floats_per_row := 2; bytes_per_row := 8; data_start := 0;
          num_rows := 2; interleaved := false |} |}.

(** An interleaved parser over 16456 + 2 * 4120 zero bytes after the
    header: two whole rows and nothing after them. *)
Definition two_rows_v6 : UniversalDLParser :=
  {| dl_path_name := "run.V6.dl";
     dl_data := zero_padded header_v6 (16456 + 2 * 4120);
     self_format_info :=
       {| version := "V6"; version_field := 6; magic := MAGIC_V5_V6;
          floats_per_row := 1030; bytes_per_row := 4120;
          data_start := 16456; num_rows := 2; interleaved := true |} |}.

(** The effect of one iteration of [_byte_swap] on one chunk. *)
Definition swap_chunk (chunk : bytes) : bytes :=
  match chunk with
  | [c0; c1; c2; c3] => [c3; c2; c1; c0]
  | _ => chunk
  end.

(** ** Well-delimited run-length input *)

(** Input that ends on a token boundary of [_rle_decompress]: a sequence
    of literal bytes (any byte but 0xFF) and whole three-byte groups
    [0xFF, COUNT, VALUE]. *)
Inductive complete : bytes -> Prop :=
| complete_nil : complete []
| complete_literal (b : byte) (rest : bytes) :
    b <> xff -> complete rest -> complete (b :: rest)
| complete_group (count value : byte) (rest : bytes) :
    complete rest -> complete (xff :: count :: value :: rest).

(** ** dlz_decompressor.py: header analysis and file conversion *)

(** The digits of a hexadecimal numeral, upper case. *)
Fixpoint upper_hex (d : Hexadecimal.uint) : string :=
  match d with
  | Hexadecimal.Nil => EmptyString
  | Hexadecimal.D0 d => String "0" (upper_hex d)
  | Hexadecimal.D1 d => String "1" (upper_hex d)
  | Hexadecimal.D2 d => String "2" (upper_hex d)
  | Hexadecimal.D3 d => String "3" (upper_hex d)
  | Hexadecimal.D4 d => String "4" (upper_hex d)
  | Hexadecimal.D5 d => String "5" (upper_hex d)
  | Hexadecimal.D6 d => String "6" (upper_hex d)
  | Hexadecimal.D7 d => String "7" (upper_hex d)
  | Hexadecimal.D8 d => String "8" (upper_hex d)
  | Hexadecimal.D9 d => String "9" (upper_hex d)
  | Hexadecimal.Da d => String "A" (upper_hex d)
  | Hexadecimal.Db d => String "B" (upper_hex d)
  | Hexadecimal.Dc d => String "C" (upper_hex d)
  | Hexadecimal.Dd d => String "D" (upper_hex d)
  | Hexadecimal.De d => String "E" (upper_hex d)
  | Hexadecimal.Df d => String "F" (upper_hex d)
  end.

(** [f'{n:08X}']: sign-aware zero padding to width eight. *)
Definition format_08X (n : Z) : string :=
  let digits := upper_hex (N.to_hex_uint (Z.to_N (Z.abs n))) in
  let sign := if n <? 0 then "-"%string else EmptyString in
  let width := (String.length sign + String.length digits)%nat in
  sign ++ string_of_list_ascii (repeat "0"%char (8 - width)) ++ digits.

(** [32 <= b < 127] *)
Definition printable (b : byte) : bool :=
  (32 <=? int_of_byte b) && (int_of_byte b <? 127).

(** [all(p(x) for x in l)], stopping at the first false. *)
Fixpoint py_all {A} (l : list A) (p : A -> outcome bool) : outcome bool :=
  match l with
  | [] => Ret true
  | x :: l' => let! ok := p x in if ok then py_all l' p else Ret false
  end.

(** A [for] loop whose body may raise, [break] with a value ([Some]) or
    go on ([None]). *)
Fixpoint for_break {A B} (l : list A) (body : A -> outcome (option B))
  : outcome (option B) :=
  match l with
  | [] => Ret None
  | x :: l' =>
      let! r := body x in
      match r with
      | Some v => Ret (Some v)
      | None => for_break l' body
      end
  end.

(** [while end < len(dlz_data) and 32 <= dlz_data[end] < 127: end += 1] *)
Fixpoint text_end_loop (fuel : nat) (dlz_data : bytes) (end_ : Z)
  : outcome Z :=
  if end_ <? len dlz_data then
    let! b := getitem dlz_data end_ in
    if printable b then
      match fuel with
      | O => OutOfFuel
      | S fuel' => text_end_loop fuel' dlz_data (end_ + 1)
      end
    else Ret end_
  else Ret end_.

(** [b.decode('ascii', errors='ignore')]: bytes from 0x80 on are
    dropped. *)
Definition decode_ascii_ignore (b : bytes) : string :=
  string_of_list_byte (filter (fun c => int_of_byte c <? 128) b).

(** The dictionary [analyze_dlz_header] returns: with ['valid': False]
    and an ['error'], or with ['valid': True] and the four findings. *)
Inductive dlz_analysis : Type :=
| analysis_invalid (error : string)
| analysis_valid (magic size ff_markers : Z) (embedded_text : option string).

Definition analyze_dlz_header (dlz_data : bytes) : outcome dlz_analysis :=
  if len dlz_data <? 32 then Ret (analysis_invalid "File too small")
  else
    let! magic := unpack_I (slice dlz_data 0 4) in
    if negb (magic =? 0x0085F41F) && negb (magic =? 0x0095365F) then
      Ret (analysis_invalid ("Unknown magic: 0x" ++ format_08X magic))
    else
      let ff_count :=
        fold_left (fun n b => if Byte.eqb b xff then n + 1 else n)
                  dlz_data 0 in
      let! embedded_text :=
        for_break (range 32 (Z.min 200 (len dlz_data - 4)) 1)
          (fun start =>
             let! found :=
               py_all (range 0 4 1)
                 (fun j =>
                    let! b := getitem dlz_data (start + j) in
                    Ret (printable b)) in
             if found then
               let! end_ :=
                 text_end_loop (List.length dlz_data) dlz_data start in
               if end_ - start >=? 4 then
                 Ret (Some (decode_ascii_ignore (slice dlz_data start end_)))
               else Ret None
             else Ret None) in
      Ret (analysis_valid magic (len dlz_data) ff_count embedded_text).

(** What a call of [decompress_file] does: it raises, returns [None]
    after the analysis, or writes the output file and returns its path.
    The paths themselves and the printed report are not modelled. *)
Inductive file_outcome : Type :=
| raised_FileNotFoundError
| raised_ZeroDivisionError
| raised (e : exn)
| out_of_fuel
| analyzed_only
| written (dl_data : bytes).

(** [decompress_file]; [file] is the content of [dlz_path], [None] when
    the path does not exist.  The division is the one in the printed
    expansion ratio, [len(dl_data)/len(dlz_data)]. *)
Definition decompress_file (file : option bytes) (analyze_only : bool)
  : file_outcome :=
  match file with
  | None => raised_FileNotFoundError
  | Some dlz_data =>
      match analyze_dlz_header dlz_data with
      | Raise e => raised e
      | OutOfFuel => out_of_fuel
      | Ret analysis =>
          if analyze_only then analyzed_only
          else
            match decompress_dlz dlz_data with
            | Raise e => raised e
            | OutOfFuel => out_of_fuel
            | Ret dl_data =>
                if len dlz_data =? 0 then raised_ZeroDivisionError
                else written dl_data
            end
      end
  end.

(** The byte at index [k] exists and is printable. *)
Definition printable_at (data : bytes) (k : Z) : Prop :=
  exists b, nth_error data (Z.to_nat k) = Some b /\ printable b = true.

(** Four printable bytes start at index [start]. *)
Definition text_starts_at (data : bytes) (start : Z) : Prop :=
  forall j, 0 <= j < 4 -> printable_at data (start + j).

(** A compressed-file sample: the 32-byte header, the text "TUNE1" and
    eight zero bytes. *)
Definition dlz_with_text : bytes :=
  header_v6 ++ [x54; x55; x4e; x45; x31] ++ repeat x00 8.

(** The checks of the heuristic scan at a search offset, as
    [_detect_v5_v6_heuristic] makes them: the float there lies strictly
    between 300 and 10000, the bytes after [search_offset - 16] leave a
    remainder under 100 modulo 1030 * 4, and the float 66 slots after
    [search_offset - 16] is readable and between 0 and 100. *)
Definition heuristic_checks (dl_data : bytes) (search_offset : Z) : Prop :=
  (exists val,
      float32_at dl_data search_offset = Some val
      /\ int_lt_float 300 val = true
      /\ float_lt_int val 10000 = true)
  /\ (len dl_data - (search_offset - 4 * 4)) mod (1030 * 4) < 100
  /\ (exists tps,
         float32_at dl_data (search_offset - 4 * 4 + 66 * 4) = Some tps
         /\ int_le_float 0 tps = true
         /\ float_le_int tps 100 = true).

(** The search offsets of the heuristic scan. *)
Definition heuristic_window (search_offset : Z) : Prop :=
  exists k, 0 <= k < 750 /\ search_offset = 15000 + 4 * k.

(** A buffer for the heuristic scan: standard magic, version indicator 4,
    the float 2500.0 at offset 15000, zeros elsewhere, 14984 + 4120 bytes
    in all. *)
Definition header_v4 : bytes :=
  [x1f; xf4; x85; x00; x00; x00; x00; x00; x04; x00; x00; x00]
  ++ repeat x00 20.

Definition heuristic_sample : bytes :=
  zero_padded (zero_padded header_v4 15000 ++ [x00; x40; x1c; x45])
              (14984 + 4120).

(** ** can/holley_can_parser.py: the identifier fields of a CAN message *)

Module CAN.

(** [bytes.hex()]: two lower-case hexadecimal digits per byte. *)
Definition hex_digit (n : Z) : ascii :=
  if n <? 10 then ascii_of_nat (Z.to_nat (48 + n))
  else ascii_of_nat (Z.to_nat (87 + n)).

Fixpoint hex (data : bytes) : string :=
  match data with
  | [] => EmptyString
  | b :: rest =>
      String (hex_digit (int_of_byte b / 16))
        (String (hex_digit (int_of_byte b mod 16)) (hex rest))
  end.

Record CANMessage : Type := {
  timestamp : spec_float;
  arbitration_id : Z;
  data : bytes;
  is_extended : bool
}.

Definition HOLLEY_MASK : Z := 0xFFFFF800.
Definition SERIAL_MASK : Z := 0x7FF.
Definition CHANNEL_MASK : Z := 0x1FFC000.
Definition SOURCE_ID_MASK : Z := 0x3800.

Definition ecu_serial (self : CANMessage) : Z :=
  Z.land (arbitration_id self) SERIAL_MASK.

Definition channel_index (self : CANMessage) : Z :=
  Z.shiftr (Z.land (arbitration_id self) CHANNEL_MASK) 14.

Definition source_id (self : CANMessage) : Z :=
  Z.shiftr (Z.land (arbitration_id self) SOURCE_ID_MASK) 11.

Definition base_id (self : CANMessage) : Z :=
  Z.land (arbitration_id self) HOLLEY_MASK.

Definition command_bit (self : CANMessage) : Z :=
  Z.land (Z.shiftr (arbitration_id self) 28) 0x1.

Definition target_id (self : CANMessage) : Z :=
  Z.land (Z.shiftr (arbitration_id self) 25) 0x7.

(** The value of a decoded signal: a number from the DBC decoding, or the
    text the basic parsing stores. *)
Inductive signal_value : Type :=
| value_int (n : Z)
| value_float (f : spec_float)
| value_str (s : string).

Record DecodedSignal : Type := {
  name : string;
  value : signal_value;
  unit : string;
  raw_value : Z;
  min_value : option spec_float;
  max_value : option spec_float
}.

Record DecodedMessage : Type := {
  msg_timestamp : spec_float;
  msg_arbitration_id : Z;
  msg_ecu_serial : Z;
  msg_channel_index : Z;
  message_name : string;
  signals : list DecodedSignal
}.

(** The parts of a [HolleyCANParser] that [parse_message] reads.  The DBC
    database belongs to the external cantools library: [dbc_db] is [None]
    when no database is loaded, and otherwise answers, for a base id and
    the payload, with the message name and decoded signals, or with [None]
    when the lookup or the decoding raises [KeyError] or [ValueError]. *)
Record HolleyCANParser : Type := {
  self_ecu_serial : option Z;
  dbc_db : option (Z -> bytes -> option (string * list DecodedSignal))
}.

Definition basic_message (raw_message : CANMessage) : DecodedMessage :=
  {| msg_timestamp := timestamp raw_message;
     msg_arbitration_id := arbitration_id raw_message;
     msg_ecu_serial := ecu_serial raw_message;
     msg_channel_index := channel_index raw_message;
     message_name := "UNKNOWN_0x" ++ format_08X (base_id raw_message);
     signals := [ {| name := "raw_data";
                     value := value_str (hex (data raw_message));
                     unit := EmptyString;
                     raw_value := 0;
                     min_value := None;
                     max_value := None |} ] |}.

Definition parse_message (self : HolleyCANParser) (raw_message : CANMessage)
  : option DecodedMessage :=
  let filtered :=
    match self_ecu_serial self with
    | Some serial =>
        let ecu_serial_lower_11 := Z.land serial 0x7FF in
        negb (ecu_serial raw_message =? ecu_serial_lower_11)
    | None => false
    end in
  if filtered then None
  else
    match dbc_db self with
    | Some db =>
        match db (base_id raw_message) (data raw_message) with
        | Some (message_name, signals) =>
            Some {| msg_timestamp := timestamp raw_message;
                    msg_arbitration_id := arbitration_id raw_message;
                    msg_ecu_serial := ecu_serial raw_message;
                    msg_channel_index := channel_index raw_message;
                    message_name := message_name;
                    signals := signals |}
        | None => Some (basic_message raw_message)
        end
    | None => Some (basic_message raw_message)
    end.

End CAN.

(** A CAN message of the serial 0x123 and a parser filtering on the full
    serial 0x5123, which has the same low 11 bits; no DBC database. *)
Definition sample_can_message : CAN.CANMessage :=
  {| CAN.timestamp := S754_zero false;
     CAN.arbitration_id := 0x1E005123;
     CAN.data := [x01; xab];
     CAN.is_extended := true |}.

Definition sample_can_parser : CAN.HolleyCANParser :=
  {| CAN.self_ecu_serial := Some 0x5123; CAN.dbc_db := None |}.

(** * Theorems *)

(** ** Slices, indexing and ranges *)

Section PyFacts.
Context {A : Type}.
Implicit Types (data : list A).

Lemma len_nonneg data : 0 <= len data.
Proof. unfold len; lia. Qed.

Lemma len_app data1 data2 : len (data1 ++ data2) = len data1 + len data2.
Proof. unfold len; rewrite length_app; lia. Qed.

Lemma len_cons (x : A) data : len (x :: data) = 1 + len data.
Proof. unfold len; simpl List.length; lia. Qed.

(** A slice with non-negative, ordered bounds is [firstn] of [skipn]. *)
Lemma slice_firstn_skipn data lo hi :
  0 <= lo -> lo <= hi ->
  slice data lo hi = firstn (Z.to_nat (hi - lo)) (skipn (Z.to_nat lo) data).
Proof.
  intros Hlo Hhi. unfold slice, clamp.
  assert (Hl : (lo <? 0) = false) by (apply Z.ltb_ge; lia).
  assert (Hh : (hi <? 0) = false) by (apply Z.ltb_ge; lia).
  rewrite Hl, Hh.
  destruct (Z.le_gt_cases lo (len data)) as [Hin | Hout].
  - rewrite (Z.min_l lo) by lia.
    destruct (Z.le_gt_cases hi (len data)) as [Hhin | Hhout].
    + rewrite Z.min_l by lia. reflexivity.
    + rewrite Z.min_r by lia.
      rewrite !firstn_all2; try reflexivity;
        rewrite length_skipn; unfold len in *; lia.
  - rewrite (Z.min_r lo) by lia. rewrite (Z.min_r hi) by lia.
    rewrite (skipn_all2 (n := Z.to_nat lo)) by (unfold len in *; lia).
    rewrite (skipn_all2 (n := Z.to_nat (len data)))
      by (unfold len in *; lia).
    rewrite !firstn_nil. reflexivity.
Qed.

Lemma getitem_nth data i x :
  0 <= i -> nth_error data (Z.to_nat i) = Some x -> getitem data i = Ret x.
Proof.
  intros Hi Hx. unfold getitem.
  assert (Hl : (i <? 0) = false) by (apply Z.ltb_ge; lia).
  rewrite Hl, Hl, Hx. reflexivity.
Qed.

Lemma getitem_app data1 data2 k x :
  nth_error data2 k = Some x ->
  getitem (data1 ++ data2) (len data1 + Z.of_nat k) = Ret x.
Proof.
  intros Hx. apply getitem_nth; [pose proof (len_nonneg data1); lia|].
  unfold len. rewrite <- Nat2Z.inj_add, Nat2Z.id.
  rewrite nth_error_app2 by lia.
  replace (List.length data1 + k - List.length data1)%nat with k by lia.
  exact Hx.
Qed.

Lemma fold_left_append {B} (g : B -> list A) (l : list B) (acc : list A) :
  fold_left (fun result i => result ++ g i) l acc = acc ++ flat_map g l.
Proof.
  revert acc. induction l as [|i l IH]; intros acc; simpl.
  - now rewrite app_nil_r.
  - rewrite IH. now rewrite <- app_assoc.
Qed.

End PyFacts.

Lemma Ret_inj {A} (a b : A) : Ret a = Ret b -> a = b.
Proof. intros H. now injection H. Qed.

Lemma fold_left_pointwise {A B} (f g : A -> B -> A) (l : list B) (acc : A) :
  (forall a b, f a b = g a b) -> fold_left f l acc = fold_left g l acc.
Proof.
  intros Hfg. revert acc. induction l as [|b l IH]; intros acc; simpl.
  - reflexivity.
  - now rewrite Hfg, IH.
Qed.

Lemma in_range start stop step x :
  0 < step ->
  In x (range start stop step) <->
  exists k, 0 <= k /\ x = start + k * step /\ x < stop.
Proof.
  intros Hstep. unfold range. rewrite in_map_iff. split.
  - intros (k & <- & Hk). apply in_seq in Hk. exists (Z.of_nat k).
    split; [lia|]. split; [reflexivity|].
    assert (Hq : Z.of_nat k < (stop - start + step - 1) / step) by lia.
    assert (Hm : step * ((stop - start + step - 1) / step)
                 <= stop - start + step - 1)
      by (apply Z.mul_div_le; lia).
    nia.
  - intros (k & Hk & -> & Hlt). exists (Z.to_nat k). split; [f_equal; lia|].
    apply in_seq. split; [lia|]. simpl.
    assert (Hq : k + 1 <= (stop - start + step - 1) / step).
    { apply Z.div_le_lower_bound; nia. }
    lia.
Qed.

(** ** The byte-swap transform *)

Lemma byteswap_spec_chunk (x : bytes) :
  swap_chunk (firstn 4 x) ++ byteswap_spec (skipn 4 x) = byteswap_spec x.
Proof. destruct x as [|a [|b [|c [|d rest]]]]; reflexivity. Qed.

Lemma byteswap_chunks (n s : nat) (data : bytes) :
  (List.length (skipn (4 * s) data) <= 4 * n)%nat ->
  flat_map (fun k => swap_chunk (firstn 4 (skipn (4 * k) data))) (seq s n)
  = byteswap_spec (skipn (4 * s) data).
Proof.
  revert s. induction n as [|n IH]; intros s Hlen.
  - destruct (skipn (4 * s) data); [reflexivity | simpl in Hlen; lia].
  - cbn [seq flat_map]. rewrite IH.
    + replace (4 * S s)%nat with (4 + 4 * s)%nat by lia.
      rewrite <- skipn_skipn. apply byteswap_spec_chunk.
    + replace (4 * S s)%nat with (4 + 4 * s)%nat by lia.
      rewrite <- skipn_skipn, length_skipn. lia.
Qed.

(** The loop over slices computes the structural definition. *)
Lemma _byte_swap_spec (data : bytes) : _byte_swap data = byteswap_spec data.
Proof.
  unfold _byte_swap.
  rewrite (fold_left_pointwise _
             (fun result i => result ++ swap_chunk (slice data i (i + 4)))).
  2:{ intros result i. unfold swap_chunk.
      destruct (slice data i (i + 4)) as [|a [|b [|c [|d [|e rest]]]]];
        reflexivity. }
  rewrite fold_left_append. cbn [app]. unfold range.
  rewrite flat_map_concat_map, map_map, <- flat_map_concat_map.
  erewrite flat_map_ext.
  - apply (byteswap_chunks _ 0 data).
    change (skipn (4 * 0) data) with data. unfold len.
    assert (H : Z.of_nat (List.length data)
                <= 4 * ((Z.of_nat (List.length data) - 0 + 4 - 1) / 4)).
    { pose proof (Z.div_mod (Z.of_nat (List.length data) - 0 + 4 - 1) 4).
      pose proof (Z.mod_pos_bound (Z.of_nat (List.length data) - 0 + 4 - 1) 4).
      lia. }
    lia.
  - intros k. cbv beta. rewrite slice_firstn_skipn by lia.
    f_equal. f_equal; [|f_equal]; lia.
Qed.

Lemma byteswap_spec_involutive (x : bytes) :
  byteswap_spec (byteswap_spec x) = x.
Proof.
  induction x as [x IH] using (well_founded_induction
    (Wf_nat.well_founded_ltof _ (@List.length byte))).
  destruct x as [|a [|b [|c [|d rest]]]]; try reflexivity.
  cbn [byteswap_spec]. rewrite IH; [reflexivity|].
  unfold Wf_nat.ltof. simpl. lia.
Qed.

Lemma byteswap_spec_length (x : bytes) :
  List.length (byteswap_spec x) = List.length x.
Proof.
  induction x as [x IH] using (well_founded_induction
    (Wf_nat.well_founded_ltof _ (@List.length byte))).
  destruct x as [|a [|b [|c [|d rest]]]]; try reflexivity.
  cbn [byteswap_spec List.length]. rewrite IH; [reflexivity|].
  unfold Wf_nat.ltof. simpl. lia.
Qed.

(** C4: the byte-swap transform is an involution on every byte sequence,
    keeps the length, reverses each complete group of four bytes and copies
    a trailing group of fewer than four bytes unchanged. *)
Theorem byte_swap_involutive :
  forall x : bytes,
    _byte_swap (_byte_swap x) = x
    /\ List.length (_byte_swap x) = List.length x
    /\ (forall a b c d rest,
           _byte_swap (a :: b :: c :: d :: rest)
           = d :: c :: b :: a :: _byte_swap rest)
    /\ _byte_swap [] = []
    /\ (forall a, _byte_swap [a] = [a])
    /\ (forall a b, _byte_swap [a; b] = [a; b])
    /\ (forall a b c, _byte_swap [a; b; c] = [a; b; c]).
Proof.
  intros x. repeat split; intros; rewrite ?_byte_swap_spec;
    auto using byteswap_spec_involutive, byteswap_spec_length.
Qed.

(** ** The run-length decoder *)

Lemma rle_loop_done fuel data length i result :
  length <= i -> rle_loop fuel data length i result = Ret result.
Proof.
  intros H. destruct fuel; cbn [rle_loop];
    (replace (i <? length) with false by (symmetry; apply Z.ltb_ge; lia));
    reflexivity.
Qed.

(** The loop, started anywhere in the input, appends the decoding of the
    rest of the input; fuel equal to the number of remaining bytes is
    enough. *)
Lemma rle_loop_spec fuel :
  forall (suf pre result : bytes),
    (List.length suf <= fuel)%nat ->
    rle_loop fuel (pre ++ suf) (len (pre ++ suf)) (len pre) result
    = Ret (result ++ rle_spec suf).
Proof.
  induction fuel as [|fuel IH]; intros suf pre result Hfuel.
  - destruct suf; [|simpl in Hfuel; lia].
    rewrite rle_loop_done by (rewrite len_app; unfold len; simpl; lia).
    now rewrite app_nil_r.
  - destruct suf as [|b rest].
    { rewrite rle_loop_done by (rewrite len_app; unfold len; simpl; lia).
      now rewrite app_nil_r. }
    cbn [rle_loop].
    replace (len pre <? len (pre ++ b :: rest)) with true
      by (symmetry; apply Z.ltb_lt; rewrite len_app, len_cons;
          pose proof (len_nonneg rest); lia).
    replace (len pre) with (len pre + Z.of_nat 0) at 1 by lia.
    rewrite (getitem_app pre (b :: rest) 0 b) by reflexivity.
    cbn [bind rle_spec].
    destruct (Byte.eqb b xff) eqn:Hb.
    + apply Byte.byte_dec_bl in Hb. subst b.
      destruct rest as [|count [|value rest']].
      * replace (len pre + 1 + 1 >=? len (pre ++ [xff])) with true;
          [reflexivity|].
        symmetry. apply Z.geb_le. rewrite len_app. unfold len at 2. simpl. lia.
      * replace (len pre + 1 + 1 >=? len (pre ++ [xff; count])) with true;
          [reflexivity|].
        symmetry. apply Z.geb_le. rewrite len_app. unfold len at 2. simpl. lia.
      * replace (len pre + 1 + 1 >=? len (pre ++ xff :: count :: value :: rest'))
          with false.
        2:{ symmetry. rewrite Z.geb_leb. apply Z.leb_gt.
            rewrite len_app, !len_cons. pose proof (len_nonneg rest'). lia. }
        replace (len pre + 1) with (len pre + Z.of_nat 1) at 1 by lia.
        rewrite (getitem_app pre (xff :: count :: value :: rest') 1 count)
          by reflexivity.
        replace (len pre + 1 + 1) with (len pre + Z.of_nat 2) by lia.
        rewrite (getitem_app pre (xff :: count :: value :: rest') 2 value)
          by reflexivity.
        cbn [bind].
        replace (pre ++ xff :: count :: value :: rest')
          with ((pre ++ [xff; count; value]) ++ rest')
          by (now rewrite <- app_assoc).
        replace (len pre + 1 + 2) with (len (pre ++ [xff; count; value]))
          by (rewrite len_app; unfold len at 2; simpl; lia).
        simpl in Hfuel.
        destruct (int_of_byte count =? 0);
          rewrite IH by lia; now rewrite <- app_assoc.
    + replace (pre ++ b :: rest) with ((pre ++ [b]) ++ rest)
        by (now rewrite <- app_assoc).
      replace (len pre + 1) with (len (pre ++ [b]))
        by (rewrite len_app; unfold len at 2; simpl; lia).
      simpl in Hfuel. rewrite IH by lia. now rewrite <- app_assoc.
Qed.

(** The decoder terminates without an exception on every input and
    computes the reference decoding. *)
Lemma _rle_decompress_spec (data : bytes) :
  _rle_decompress data = Ret (rle_spec data).
Proof.
  unfold _rle_decompress.
  exact (rle_loop_spec (List.length data) data [] [] (Nat.le_refl _)).
Qed.

Lemma rle_spec_marker_free (x : bytes) : marker_free x -> rle_spec x = x.
Proof.
  unfold marker_free. induction x as [|b rest IH]; intros Hfree.
  - reflexivity.
  - cbn [rle_spec]. destruct (Byte.eqb b xff) eqn:Hb.
    + apply Byte.byte_dec_bl in Hb. subst b. exfalso. apply Hfree. now left.
    + rewrite IH; [reflexivity|]. intros Hin. apply Hfree. now right.
Qed.

(** C3: the decoder computes the reference definition (a byte other than
    0xFF is copied; 0xFF followed by at least two bytes is a group that emits
    one 0xFF when COUNT is 0 and VALUE COUNT times otherwise).  In
    particular [0xFF, 0x00, v] decodes to [0xFF], and [0xFF, n, v] with
    n > 0 decodes to v repeated n times. *)
Theorem rle_decode_reference :
  (forall x : bytes, _rle_decompress x = Ret (rle_spec x))
  /\ (forall b rest, b <> xff ->
        exists out, _rle_decompress rest = Ret out
                    /\ _rle_decompress (b :: rest) = Ret (b :: out))
  /\ (forall count value rest,
        exists out, _rle_decompress rest = Ret out
                    /\ _rle_decompress (xff :: count :: value :: rest)
                       = Ret ((if int_of_byte count =? 0 then [xff]
                               else repeat value
                                      (Z.to_nat (int_of_byte count)))
                              ++ out))
  /\ (forall v, _rle_decompress [xff; x00; v] = Ret [xff])
  /\ (forall n v, 0 < int_of_byte n ->
        _rle_decompress [xff; n; v]
        = Ret (repeat v (Z.to_nat (int_of_byte n)))).
Proof.
  split; [exact _rle_decompress_spec|].
  split.
  { intros b rest Hb. exists (rle_spec rest).
    rewrite !_rle_decompress_spec. split; [reflexivity|].
    cbn [rle_spec].
    destruct (Byte.eqb b xff) eqn:E; [|reflexivity].
    apply Byte.byte_dec_bl in E. contradiction. }
  split.
  { intros count value rest. exists (rle_spec rest).
    rewrite !_rle_decompress_spec. split; reflexivity. }
  split.
  { intros v. rewrite _rle_decompress_spec. reflexivity. }
  intros n v Hn. rewrite _rle_decompress_spec. cbn [rle_spec Byte.eqb].
  change (Byte.eqb xff xff) with true. cbv iota.
  replace (int_of_byte n =? 0) with false by (symmetry; apply Z.eqb_neq; lia).
  now rewrite app_nil_r.
Qed.

(** Witness for C3: the run [0xFF, 0x05, 0x41] of the specification's
    run-correctness example, and a literal byte in front of a run. *)
Lemma rle_decode_reference_witness :
  _rle_decompress [xff; x05; x41] = Ret [x41; x41; x41; x41; x41]
  /\ (exists out, _rle_decompress [xff; x02; x07] = Ret out
                  /\ _rle_decompress [x41; xff; x02; x07] = Ret (x41 :: out)).
Proof.
  destruct rle_decode_reference as (_ & Hlit & _ & _ & Hrun). split.
  - apply (Hrun x05 x41). reflexivity.
  - apply (Hlit x41 [xff; x02; x07]). discriminate.
Defined.

(** C9: on input without the byte 0xFF the decoder is the identity. *)
Theorem rle_decode_marker_free_id :
  forall x : bytes, marker_free x -> _rle_decompress x = Ret x.
Proof.
  intros x Hfree. rewrite _rle_decompress_spec.
  now rewrite rle_spec_marker_free.
Qed.

Lemma rle_decode_marker_free_id_witness :
  _rle_decompress [x00; x41; xfe; x1f] = Ret [x00; x41; xfe; x1f].
Proof.
  apply rle_decode_marker_free_id. unfold marker_free. simpl.
  intros [H | [H | [H | [H | []]]]]; discriminate H.
Defined.

(** ** The decompression pipeline *)

(** C2: [decompress_dlz] returns on every input, the empty one included,
    and its result is the byte swap of the run-length decoding of the byte
    swap of the input, in that order. *)
Theorem decompress_is_swap_rle_swap :
  (forall x : bytes,
      exists swapped decoded,
        swapped = _byte_swap x
        /\ _rle_decompress swapped = Ret decoded
        /\ decompress_dlz x = Ret (_byte_swap decoded)
        /\ decompress_dlz x
           = Ret (byteswap_spec (rle_spec (byteswap_spec x))))
  /\ decompress_dlz [] = Ret [].
Proof.
  split; [|reflexivity].
  intros x. exists (_byte_swap x), (rle_spec (_byte_swap x)).
  split; [reflexivity|]. split; [apply _rle_decompress_spec|].
  unfold decompress_dlz. rewrite _rle_decompress_spec. cbn [bind].
  split; [reflexivity|]. now rewrite !_byte_swap_spec.
Qed.

(** ** Reading header fields and floats *)

Lemma unpack_I_slice (buf : bytes) (off : Z) :
  0 <= off ->
  unpack_I (slice buf off (off + 4))
  = match le32_at buf off with
    | Some v => Ret v
    | None => Raise StructError
    end.
Proof.
  intros Hoff. rewrite slice_firstn_skipn by lia.
  replace (Z.to_nat (off + 4 - off)) with 4%nat by lia.
  unfold le32_at.
  destruct (skipn (Z.to_nat off) buf) as [|a [|b [|c [|d rest]]]];
    reflexivity.
Qed.

Lemma unpack_f_slice (buf : bytes) (off : Z) :
  0 <= off ->
  unpack_f (slice buf off (off + 4))
  = match float32_at buf off with
    | Some v => Ret v
    | None => Raise StructError
    end.
Proof.
  intros Hoff. unfold unpack_f, float32_at.
  rewrite unpack_I_slice by assumption.
  destruct (le32_at buf off); reflexivity.
Qed.

Lemma le32_at_in_range (buf : bytes) (off : Z) :
  0 <= off -> off + 4 <= len buf -> exists v, le32_at buf off = Some v.
Proof.
  intros Hoff Hlen. unfold le32_at.
  assert (Hl : (4 <= List.length (skipn (Z.to_nat off) buf))%nat)
    by (rewrite length_skipn; unfold len in Hlen; lia).
  destruct (skipn (Z.to_nat off) buf) as [|a [|b [|c [|d rest]]]];
    simpl in Hl; try lia.
  eexists; reflexivity.
Qed.

Lemma float32_at_in_range (buf : bytes) (off : Z) :
  0 <= off -> off + 4 <= len buf -> exists v, float32_at buf off = Some v.
Proof.
  intros Hoff Hlen. unfold float32_at.
  destruct (le32_at_in_range buf off Hoff Hlen) as [w ->].
  eexists; reflexivity.
Qed.

(** ** Format detection *)

(** With at least 32 bytes, detection reads both header fields and
    dispatches on the magic. *)
Lemma detect_format_dispatch (buf : bytes) (m : Z) :
  32 <= len buf ->
  le32_at buf 0 = Some m ->
  exists field_08,
    le32_at buf 8 = Some field_08
    /\ detect_format buf
       = if m =? MAGIC_V3 then Ret (_detect_v3_format buf field_08)
         else if m =? MAGIC_V5_V6 then _detect_v5_v6_format buf field_08
         else Ret None.
Proof.
  intros Hlen Hm.
  destruct (le32_at_in_range buf 8) as [f Hf]; [lia | lia |].
  exists f. split; [exact Hf|].
  unfold detect_format.
  replace (len buf <? 32) with false by (symmetry; apply Z.ltb_ge; lia).
  change (slice buf 0 4) with (slice buf 0 (0 + 4)).
  change (slice buf 8 12) with (slice buf 8 (8 + 4)).
  rewrite !unpack_I_slice by lia. rewrite Hm, Hf. reflexivity.
Qed.

Lemma detect_format_short (buf : bytes) :
  len buf < 32 -> detect_format buf = Ret None.
Proof.
  intros Hlen. unfold detect_format.
  now replace (len buf <? 32) with true by (symmetry; apply Z.ltb_lt; lia).
Qed.

Lemma detect_format_unknown_magic (buf : bytes) (m : Z) :
  32 <= len buf -> le32_at buf 0 = Some m ->
  m <> MAGIC_V3 -> m <> MAGIC_V5_V6 ->
  detect_format buf = Ret None.
Proof.
  intros Hlen Hm H3 H56.
  destruct (detect_format_dispatch buf m Hlen Hm) as (f & _ & ->).
  apply Z.eqb_neq in H3, H56. now rewrite H3, H56.
Qed.

Lemma detect_format_standard (buf : bytes) (field_08 : Z) :
  32 <= len buf ->
  le32_at buf 0 = Some MAGIC_V5_V6 -> le32_at buf 8 = Some field_08 ->
  detect_format buf = _detect_v5_v6_format buf field_08.
Proof.
  intros Hlen Hm Hf.
  destruct (detect_format_dispatch buf _ Hlen Hm) as (f & Hf' & ->).
  rewrite Hf in Hf'. injection Hf' as <-. reflexivity.
Qed.

(** The descriptor the Variant C branch builds. *)
Lemma _detect_v5_v6_format_v6 (buf : bytes) :
  _detect_v5_v6_format buf 6
  = if (16456 + 4120 <=? len buf) && ((len buf - 16456) mod 4120 <? 100)
    then Ret (Some {| version := "V6";
                      version_field := 6;
                      magic := MAGIC_V5_V6;
                      floats_per_row := 1030;
                      bytes_per_row := 4120;
                      data_start := 16456;
                      num_rows := (len buf - 16456) / 4120;
                      interleaved := true |})
    else Ret None.
Proof.
  unfold _detect_v5_v6_format, VERSION_V6, V6_DATA_START.
  change (6 =? 6) with true. cbv iota. change (1030 * 4) with 4120.
  replace ((len buf - 16456) / 4120 >? 0) with (16456 + 4120 <=? len buf);
    [reflexivity|].
  rewrite Z.gtb_ltb.
  destruct (Z.leb_spec (16456 + 4120) (len buf)) as [H | H];
    symmetry; [apply Z.ltb_lt | apply Z.ltb_ge].
  - assert (1 <= (len buf - 16456) / 4120)
      by (apply Z.div_le_lower_bound; lia). lia.
  - assert ((len buf - 16456) / 4120 < 1)
      by (apply Z.div_lt_upper_bound; lia). lia.
Qed.

(** C1, as the code has it: for a buffer of at least 32 bytes with the
    standard magic and version indicator 6, detection raises nothing; it
    returns a descriptor exactly when the buffer holds at least one whole
    row after offset 16456 and the bytes after 16456 leave a remainder
    under 100 modulo 4120, and every descriptor it returns has data_start
    16456, interleaved true and 1030 floats per row; otherwise it returns
    no descriptor. *)
Theorem v6_fixed_layout :
  forall buf : bytes,
    32 <= len buf ->
    le32_at buf 0 = Some 0x0085F41F ->
    le32_at buf 8 = Some 6 ->
    (16456 + 4120 <= len buf /\ (len buf - 16456) mod 4120 < 100 ->
     exists info,
       detect_format buf = Ret (Some info)
       /\ data_start info = 16456
       /\ interleaved info = true
       /\ floats_per_row info = 1030
       /\ bytes_per_row info = 1030 * 4
       /\ num_rows info = (len buf - 16456) / 4120)
    /\ (~ (16456 + 4120 <= len buf /\ (len buf - 16456) mod 4120 < 100) ->
        detect_format buf = Ret None)
    /\ (forall info,
          detect_format buf = Ret (Some info) ->
          data_start info = 16456
          /\ interleaved info = true
          /\ floats_per_row info = 1030).
Proof.
  intros buf Hlen Hm Hf.
  rewrite (detect_format_standard buf 6 Hlen Hm Hf), _detect_v5_v6_format_v6.
  destruct (Z.leb_spec (16456 + 4120) (len buf)) as [Hrow | Hrow];
    destruct (Z.ltb_spec ((len buf - 16456) mod 4120) 100) as [Hrem | Hrem];
    cbn [andb].
  1:{ split; [|split].
      - intros _. eexists. repeat split; reflexivity.
      - intros Hn. exfalso. apply Hn. split; lia.
      - intros info Hinfo. injection Hinfo as <-. repeat split. }
  all: split; [intros [? ?]; lia | split; [reflexivity|]];
    intros info Hinfo; discriminate Hinfo.
Qed.

(** Witness for C1: a header followed by exactly one zero row. *)
Lemma v6_fixed_layout_witness :
  exists info,
    detect_format (zero_padded header_v6 (16456 + 4120)) = Ret (Some info)
    /\ data_start info = 16456
    /\ interleaved info = true
    /\ floats_per_row info = 1030
    /\ bytes_per_row info = 1030 * 4
    /\ num_rows info = 1.
Proof.
  assert (Hlen : len (zero_padded header_v6 (16456 + 4120)) = 20576)
    by (vm_compute; reflexivity).
  destruct (v6_fixed_layout (zero_padded header_v6 (16456 + 4120)))
    as (Hsome & _ & _).
  - rewrite Hlen. lia.
  - vm_compute. reflexivity.
  - vm_compute. reflexivity.
  - rewrite Hlen in Hsome. apply Hsome. split; [lia|].
    vm_compute. reflexivity.
Defined.

(** C1 as stated fails: a buffer with the standard magic and version
    indicator 6 gets no descriptor when it holds no whole row after offset
    16456 (the bare 32-byte header), or when its length leaves a remainder
    of 100 or more (one row and 200 more bytes). *)
Lemma v6_detection_can_fail :
  (32 <= len header_v6
   /\ le32_at header_v6 0 = Some 0x0085F41F
   /\ le32_at header_v6 8 = Some 6
   /\ detect_format header_v6 = Ret None)
  /\ (32 <= len (zero_padded header_v6 (16456 + 4120 + 200))
      /\ le32_at (zero_padded header_v6 (16456 + 4120 + 200)) 0
         = Some 0x0085F41F
      /\ le32_at (zero_padded header_v6 (16456 + 4120 + 200)) 8 = Some 6
      /\ detect_format (zero_padded header_v6 (16456 + 4120 + 200))
         = Ret None).
Proof.
  split; (split; [vm_compute; discriminate|]);
    repeat split; vm_compute; reflexivity.
Qed.

Lemma v5_message_not_unknown (name : string) :
  ValueError (v5_message 5) <> ValueError ("Unknown DL format: " ++ name).
Proof. intros H. vm_compute in H. discriminate H. Qed.

(** C6: for a buffer of at least 32 bytes with the standard magic and
    version indicator 5, detection raises the V5 error: no descriptor is
    returned, construction fails with the same error, and so no table is
    ever decoded.  The outcome differs from the one for an unrecognised
    magic, where detection returns None and construction raises the
    "Unknown DL format" error. *)
Theorem v5_unsupported_sparse :
  forall (buf : bytes) (name : string),
    32 <= len buf ->
    le32_at buf 0 = Some 0x0085F41F ->
    le32_at buf 8 = Some 5 ->
    detect_format buf = Raise (ValueError (v5_message 5))
    /\ __init__ name buf = Raise (ValueError (v5_message 5))
    /\ parse_file name buf = Raise (ValueError (v5_message 5))
    /\ (forall (other : bytes) (m : Z),
          32 <= len other ->
          le32_at other 0 = Some m -> m <> MAGIC_V3 -> m <> MAGIC_V5_V6 ->
          detect_format other = Ret None
          /\ __init__ name other
             = Raise (ValueError ("Unknown DL format: " ++ name))
          /\ detect_format other <> detect_format buf
          /\ __init__ name other <> __init__ name buf).
Proof.
  intros buf name Hlen Hm Hf.
  assert (Hd : detect_format buf = Raise (ValueError (v5_message 5))).
  { rewrite (detect_format_standard buf 5 Hlen Hm Hf). reflexivity. }
  assert (Hi : __init__ name buf = Raise (ValueError (v5_message 5))).
  { unfold __init__. rewrite Hd. reflexivity. }
  split; [exact Hd|]. split; [exact Hi|].
  split; [unfold parse_file; rewrite Hi; reflexivity|].
  intros other m Hlen' Hm' H3 H56.
  pose proof (detect_format_unknown_magic other m Hlen' Hm' H3 H56) as Hu.
  assert (Hiu : __init__ name other
                = Raise (ValueError ("Unknown DL format: " ++ name))).
  { unfold __init__. rewrite Hu. reflexivity. }
  split; [exact Hu|]. split; [exact Hiu|]. split.
  - rewrite Hu, Hd. discriminate.
  - rewrite Hiu, Hi. intros H. injection H as H.
    apply (v5_message_not_unknown name). now rewrite H.
Qed.

Lemma v5_unsupported_sparse_witness :
  detect_format header_v5 = Raise (ValueError (v5_message 5))
  /\ parse_file "run.dl" header_v5 = Raise (ValueError (v5_message 5))
  /\ __init__ "run.dl" header_unknown <> __init__ "run.dl" header_v5.
Proof.
  destruct (v5_unsupported_sparse header_v5 "run.dl")
    as (Hd & _ & Hp & Hother).
  - vm_compute. discriminate.
  - vm_compute. reflexivity.
  - vm_compute. reflexivity.
  - split; [exact Hd|]. split; [exact Hp|].
    destruct (Hother header_unknown 0) as (_ & _ & _ & Hne).
    + vm_compute. discriminate.
    + vm_compute. reflexivity.
    + discriminate.
    + discriminate.
    + exact Hne.
Defined.

(** C7, as the code has it: a buffer shorter than 32 bytes gets no
    descriptor and construction raises the "Unknown DL format" error, the
    very outcome of a buffer of at least 32 bytes whose magic is neither
    known signature. *)
Theorem short_buffer_is_unknown_format :
  forall (buf : bytes) (name : string),
    len buf < 32 ->
    detect_format buf = Ret None
    /\ __init__ name buf = Raise (ValueError ("Unknown DL format: " ++ name))
    /\ parse_file name buf
       = Raise (ValueError ("Unknown DL format: " ++ name))
    /\ (forall (other : bytes) (m : Z),
          32 <= len other ->
          le32_at other 0 = Some m -> m <> MAGIC_V3 -> m <> MAGIC_V5_V6 ->
          detect_format other = detect_format buf
          /\ __init__ name other = __init__ name buf).
Proof.
  intros buf name Hlen.
  pose proof (detect_format_short buf Hlen) as Hd.
  assert (Hi : __init__ name buf
               = Raise (ValueError ("Unknown DL format: " ++ name))).
  { unfold __init__. rewrite Hd. reflexivity. }
  split; [exact Hd|]. split; [exact Hi|].
  split; [unfold parse_file; rewrite Hi; reflexivity|].
  intros other m Hlen' Hm' H3 H56.
  pose proof (detect_format_unknown_magic other m Hlen' Hm' H3 H56) as Hu.
  split; [now rewrite Hu, Hd|].
  unfold __init__. now rewrite Hu, Hd.
Qed.

Lemma short_buffer_is_unknown_format_witness :
  detect_format [x1f; xf4; x85; x00] = Ret None
  /\ __init__ "run.dl" [x1f; xf4; x85; x00]
     = Raise (ValueError "Unknown DL format: run.dl")
  /\ __init__ "run.dl" header_unknown = __init__ "run.dl" [x1f; xf4; x85; x00].
Proof.
  destruct (short_buffer_is_unknown_format [x1f; xf4; x85; x00] "run.dl")
    as (Hd & Hi & _ & Hother).
  - vm_compute. reflexivity.
  - split; [exact Hd|]. split; [exact Hi|].
    destruct (Hother header_unknown 0) as (_ & Hsame).
    + vm_compute. discriminate.
    + vm_compute. reflexivity.
    + discriminate.
    + discriminate.
    + exact Hsame.
Defined.

(** C7 as stated fails: the error for a buffer shorter than 32 bytes is not
    distinct from the error for an unrecognised magic.  For the empty
    buffer and for 32 zero bytes, detection and construction give the
    same outcome. *)
Lemma short_buffer_error_not_distinct :
  len (@nil byte) < 32
  /\ 32 <= len header_unknown
  /\ le32_at header_unknown 0 = Some 0
  /\ 0 <> MAGIC_V3 /\ 0 <> MAGIC_V5_V6
  /\ detect_format [] = detect_format header_unknown
  /\ __init__ "run.dl" [] = Raise (ValueError "Unknown DL format: run.dl")
  /\ __init__ "run.dl" header_unknown
     = Raise (ValueError "Unknown DL format: run.dl").
Proof.
  repeat split; try discriminate; vm_compute; try reflexivity;
    discriminate.
Qed.

(** ** The Variant A scan *)

(** A loop with [return] over an arithmetic progression returns at the
    first index whose body returns. *)
Lemma for_return_first {B} (f : nat -> Z) (body : Z -> option B) (n s : nat)
    (r : B) :
  for_return (map f (seq s n)) body = Some r ->
  exists k, (s <= k < s + n)%nat
            /\ body (f k) = Some r
            /\ forall j, (s <= j < k)%nat -> body (f j) = None.
Proof.
  revert s. induction n as [|n IH]; intros s H; [discriminate H|].
  cbn [seq map for_return] in H.
  destruct (body (f s)) as [r'|] eqn:Hs.
  - injection H as ->. exists s. split; [lia|]. split; [exact Hs|].
    intros j Hj. lia.
  - destruct (IH (S s) H) as (k & Hk & Hbody & Hbefore).
    exists k. split; [lia|]. split; [exact Hbody|].
    intros j Hj. destruct (Nat.eq_dec j s) as [-> | Hne]; [exact Hs|].
    apply Hbefore. lia.
Qed.

Lemma for_return_some {B} (f : nat -> Z) (body : Z -> option B) (n s k : nat) :
  (s <= k < s + n)%nat -> body (f k) <> None ->
  for_return (map f (seq s n)) body <> None.
Proof.
  revert s. induction n as [|n IH]; intros s Hk Hbody; [lia|].
  cbn [seq map for_return].
  destruct (body (f s)) as [r'|] eqn:Hs; [discriminate|].
  apply IH; [|exact Hbody].
  destruct (Nat.eq_dec k s) as [-> | Hne]; [contradiction|lia].
Qed.

(** One iteration of the scan returns exactly when both checks hold, and
    then with the candidate as data start. *)
Lemma _detect_v3_candidate_checks (buf : bytes) (field_08 candidate : Z) :
  0 <= candidate ->
  (forall info,
      _detect_v3_candidate buf field_08 candidate = Some info ->
      v3_checks buf candidate
      /\ data_start info = candidate
      /\ num_rows info = (len buf - candidate) / (516 * 4)
      /\ floats_per_row info = 516
      /\ bytes_per_row info = 516 * 4
      /\ interleaved info = false)
  /\ (v3_checks buf candidate ->
      _detect_v3_candidate buf field_08 candidate <> None).
Proof.
  intros Hc. unfold _detect_v3_candidate, v3_checks.
  rewrite unpack_f_slice by lia.
  destruct (Z.ltb_spec ((len buf - candidate) mod (516 * 4)) 100)
    as [Hrem | Hrem].
  2:{ split; [discriminate | intros [? _]; lia]. }
  destruct (float32_at buf (candidate + 10 * 4)) as [val|];
    cbn [bind try_pass].
  2:{ split; [discriminate | intros (_ & val & Hval & _); discriminate]. }
  destruct (int_le_float 0 (SFabs val)) eqn:Hlo;
    destruct (float_lt_int (SFabs val) 50000) eqn:Hhi;
    cbn [andb try_pass].
  1:{ split; [|discriminate].
      intros info Hinfo. injection Hinfo as <-. cbn.
      repeat split; try assumption. exists val. now repeat split. }
  all: split; [discriminate|];
    intros (_ & val' & Hval & Hlo' & Hhi'); injection Hval as <-;
    congruence.
Qed.

(** C8: when a buffer with the legacy magic is classified, the data start
    of its descriptor is a candidate of the scan window 1000, 1100, ...,
    4900 that passes both checks, and no lower candidate of the window
    passes both; the scan succeeds whenever some candidate passes. *)
Theorem v3_lowest_candidate_wins :
  forall buf : bytes,
    32 <= len buf ->
    le32_at buf 0 = Some 0x0095365F ->
    (forall info,
        detect_format buf = Ret (Some info) ->
        v3_window (data_start info)
        /\ v3_checks buf (data_start info)
        /\ (forall lower,
               v3_window lower -> v3_checks buf lower ->
               data_start info <= lower)
        /\ floats_per_row info = 516
        /\ bytes_per_row info = 516 * 4
        /\ interleaved info = false)
    /\ ((exists candidate, v3_window candidate /\ v3_checks buf candidate) ->
        exists info, detect_format buf = Ret (Some info)).
Proof.
  intros buf Hlen Hm.
  destruct (detect_format_dispatch buf _ Hlen Hm) as (field_08 & _ & ->).
  change (0x0095365F =? MAGIC_V3) with true. cbv iota.
  unfold _detect_v3_format, V3_DATA_START_RANGE, range. cbn [fst snd].
  change (Z.to_nat ((5000 - 1000 + 100 - 1) / 100)) with 40%nat.
  split.
  - intros info Hinfo. apply Ret_inj in Hinfo.
    apply for_return_first in Hinfo.
    destruct Hinfo as (k & Hk & Hbody & Hbefore).
    destruct (_detect_v3_candidate_checks buf field_08
                (1000 + Z.of_nat k * 100)) as [Hsome _]; [lia|].
    destruct (Hsome info Hbody) as (Hchk & Hds & _ & Hfl & Hby & Hil).
    rewrite Hds. split; [exists (Z.of_nat k); lia|].
    split; [exact Hchk|]. split; [|now repeat split].
    intros lower (j & Hj & ->) Hlower.
    destruct (Z.le_gt_cases (Z.of_nat k) j) as [Hle | Hgt]; [lia|].
    exfalso.
    destruct (_detect_v3_candidate_checks buf field_08
                (1000 + Z.of_nat (Z.to_nat j) * 100)) as [_ Hnone]; [lia|].
    apply Hnone.
    + replace (1000 + Z.of_nat (Z.to_nat j) * 100) with (1000 + 100 * j)
        by lia.
      exact Hlower.
    + apply Hbefore. lia.
  - intros (candidate & (j & Hj & ->) & Hchk).
    destruct (for_return (map (fun k => 1000 + Z.of_nat k * 100) (seq 0 40))
                (_detect_v3_candidate buf field_08)) as [info|] eqn:Hscan.
    + exists info. reflexivity.
    + exfalso. revert Hscan.
      apply (for_return_some _ _ 40 0 (Z.to_nat j)); [lia|].
      destruct (_detect_v3_candidate_checks buf field_08
                  (1000 + Z.of_nat (Z.to_nat j) * 100)) as [_ Hnone]; [lia|].
      apply Hnone.
      replace (1000 + Z.of_nat (Z.to_nat j) * 100) with (1000 + 100 * j)
        by lia.
      exact Hchk.
Qed.

(** Witness for C8: after the header, zeros up to 1200 + 2064 bytes; the
    candidates 1000 and 1100 fail the remainder check, 1200 passes both. *)
Lemma v3_lowest_candidate_wins_witness :
  exists info,
    detect_format (zero_padded header_v3 (1200 + 2064)) = Ret (Some info)
    /\ data_start info = 1200
    /\ v3_checks (zero_padded header_v3 (1200 + 2064)) 1200.
Proof.
  destruct (v3_lowest_candidate_wins (zero_padded header_v3 (1200 + 2064)))
    as (Hleast & _).
  - vm_compute. discriminate.
  - vm_compute. reflexivity.
  - eexists. split; [vm_compute; reflexivity|]. split; [reflexivity|].
    match goal with
    | |- v3_checks ?b ?d =>
        destruct (Hleast {| version := "V3"; version_field := 3;
                            magic := MAGIC_V3; floats_per_row := 516;
                            bytes_per_row := 2064; data_start := 1200;
                            num_rows := 1; interleaved := false |})
          as (_ & Hchk & _)
    end.
    + vm_compute. reflexivity.
    + exact Hchk.
Defined.

(** ** Column names *)

Lemma uint_of_string_zeros (k : nat) (s : string) (d : uint) :
  NilEmpty.uint_of_string s = Some d ->
  exists d', NilEmpty.uint_of_string
               (string_of_list_ascii (repeat "0"%char k) ++ s) = Some d'
             /\ Z.of_uint d' = Z.of_uint d.
Proof.
  intros Hs. induction k as [|k (d' & Hd' & Hv)].
  - exists d. split; [exact Hs | reflexivity].
  - exists (D0 d'). cbn [repeat string_of_list_ascii String.append].
    cbn [NilEmpty.uint_of_string]. rewrite Hd'. split; [reflexivity|].
    exact Hv.
Qed.

Lemma format_03d_parse (n : Z) : 0 <= n -> parse_03d (format_03d n) = Some n.
Proof.
  intros Hn. unfold format_03d, parse_03d, str.
  replace (n <? 0) with false by (symmetry; apply Z.ltb_ge; lia).
  rewrite Z.abs_eq by lia. cbn [String.append String.length Nat.add].
  pose proof (DecimalZ.of_to n) as Hback.
  destruct (Z.to_int n) as [u | u] eqn:Hu.
  - cbn [NilEmpty.string_of_int].
    destruct (uint_of_string_zeros
                (3 - String.length (NilEmpty.string_of_uint u))
                (NilEmpty.string_of_uint u) u (NilEmpty.usu u))
      as (d' & -> & Hv).
    cbn [option_map]. f_equal. rewrite Hv. exact Hback.
  - destruct n; cbn in Hu; try discriminate Hu. lia.
Qed.

Lemma col_name_inj (a b : Z) :
  0 <= a -> 0 <= b -> col_name a = col_name b -> a = b.
Proof.
  intros Ha Hb Heq. unfold col_name in Heq. cbn [String.append] in Heq.
  injection Heq as Heq.
  pose proof (format_03d_parse a Ha) as Hpa.
  pose proof (format_03d_parse b Hb) as Hpb.
  rewrite Heq in Hpa. rewrite Hpa in Hpb. now injection Hpb.
Qed.

(** ** Loops that build lists and dictionaries *)

Lemma range_0_1 (n : Z) : range 0 n 1 = map Z.of_nat (seq 0 (Z.to_nat n)).
Proof.
  unfold range. replace ((n - 0 + 1 - 1) / 1) with n by (rewrite Z.div_1_r; lia).
  apply map_ext. intros k. lia.
Qed.

Lemma in_range_0_1 (n x : Z) : In x (range 0 n 1) <-> 0 <= x < n.
Proof.
  rewrite in_range by lia. split.
  - intros (k & Hk & -> & Hlt). lia.
  - intros Hx. exists x. lia.
Qed.

Lemma nth_error_range_0_1 (n i : Z) :
  0 <= i < n -> nth_error (range 0 n 1) (Z.to_nat i) = Some i.
Proof.
  intros Hi. rewrite range_0_1, nth_error_map.
  rewrite (nth_error_nth' _ 0%nat) by (rewrite length_seq; lia).
  rewrite seq_nth by lia. cbn [option_map]. f_equal. lia.
Qed.

Lemma for_each_collect {A B} (l : list A) (h : A -> B)
    (body : list B -> A -> outcome (list B)) (acc : list B) :
  (forall s x, In x l -> body s x = Ret (s ++ [h x])) ->
  for_each l acc body = Ret (acc ++ map h l).
Proof.
  revert acc. induction l as [|x l IH]; intros acc Hbody; cbn [for_each map].
  - now rewrite app_nil_r.
  - rewrite Hbody by now left. cbn [bind].
    rewrite IH by (intros s y Hy; apply Hbody; now right).
    now rewrite <- app_assoc.
Qed.

Lemma dict_set_fresh {V} (d : list (string * V)) (k : string) (v : V) :
  ~ In k (map fst d) -> dict_set d k v = d ++ [(k, v)].
Proof.
  induction d as [|[k' v'] d IH]; intros Hfresh; cbn [dict_set app].
  - reflexivity.
  - destruct (String.eqb_spec k' k) as [-> | Hne].
    + exfalso. apply Hfresh. now left.
    + rewrite IH; [reflexivity|]. intros Hin. apply Hfresh. now right.
Qed.

(** A loop that stores one entry per element under pairwise distinct
    keys leaves the entries in iteration order. *)
Lemma for_each_dict {A V} (l : list A) (key : A -> string) (val : A -> V)
    (body : list (string * V) -> A -> outcome (list (string * V)))
    (d : list (string * V)) :
  (forall s x, In x l -> body s x = Ret (dict_set s (key x) (val x))) ->
  NoDup (map key l) ->
  (forall x, In x l -> ~ In (key x) (map fst d)) ->
  for_each l d body = Ret (d ++ map (fun x => (key x, val x)) l).
Proof.
  revert d. induction l as [|x l IH]; intros d Hbody Hnodup Hfresh;
    cbn [for_each map].
  - now rewrite app_nil_r.
  - rewrite Hbody by now left. cbn [bind].
    rewrite dict_set_fresh by (apply Hfresh; now left).
    cbn [map] in Hnodup. apply NoDup_cons_iff in Hnodup as [Hx Hnodup].
    rewrite IH.
    + now rewrite <- app_assoc.
    + intros s y Hy. apply Hbody. now right.
    + exact Hnodup.
    + intros y Hy. rewrite map_app, in_app_iff. cbn [map fst In].
      intros [Hin | [Heq | []]].
      * apply (Hfresh y); [now right | exact Hin].
      * apply Hx. rewrite Heq. now apply in_map.
Qed.

Lemma col_names_nodup (n : Z) : NoDup (map col_name (range 0 n 1)).
Proof.
  rewrite range_0_1, map_map.
  apply Injective_map_NoDup_in; [|apply seq_NoDup].
  intros a b _ _ Heq. apply col_name_inj in Heq; lia.
Qed.

(** ** The structured decoder *)

Lemma cell_at_missing (buf : bytes) (offset : Z) :
  len buf < offset + 4 -> cell_at buf offset = np_nan.
Proof.
  intros H. unfold cell_at.
  now replace (offset + 4 <=? len buf) with false
    by (symmetry; apply Z.leb_gt; lia).
Qed.

Lemma cell_at_present (buf : bytes) (offset : Z) :
  0 <= offset -> offset + 4 <= len buf ->
  exists value, float32_at buf offset = Some value
                /\ cell_at buf offset = value.
Proof.
  intros H0 H. unfold cell_at.
  replace (offset + 4 <=? len buf) with true
    by (symmetry; apply Z.leb_le; lia).
  destruct (float32_at_in_range buf offset H0 H) as [v Hv].
  exists v. now rewrite Hv.
Qed.

Section Decoder.
Variables (buf : bytes) (data_start bytes_per_row num_rows : Z).
Hypothesis data_start_nonneg : 0 <= data_start.
Hypothesis bytes_per_row_nonneg : 0 <= bytes_per_row.

(** The row loop, for a column at byte [col_offset] within the row. *)
Lemma row_loop_cells (col_offset : Z) :
  0 <= col_offset ->
  for_each (range 0 num_rows 1) []
    (fun col_data row_idx =>
       let row_offset := data_start + row_idx * bytes_per_row in
       let offset := row_offset + col_offset in
       if offset + 4 <=? len buf then
         let! value := unpack_f (slice buf offset (offset + 4)) in
         Ret (col_data ++ [value])
       else Ret (col_data ++ [np_nan]))
  = Ret (map (fun r => cell_at buf (data_start + r * bytes_per_row
                                     + col_offset))
             (range 0 num_rows 1)).
Proof.
  intros Hcol.
  rewrite (for_each_collect _
             (fun r => cell_at buf (data_start + r * bytes_per_row
                                    + col_offset))); [reflexivity|].
  intros s r Hr. apply in_range_0_1 in Hr. cbv zeta.
  assert (Hoff : 0 <= data_start + r * bytes_per_row + col_offset) by nia.
  unfold cell_at.
  destruct (Z.leb_spec (data_start + r * bytes_per_row + col_offset + 4)
              (len buf)) as [Hin | Hout]; [|reflexivity].
  rewrite unpack_f_slice by exact Hoff.
  destruct (float32_at_in_range buf _ Hoff Hin) as [v ->]. reflexivity.
Qed.

Lemma column_loop_table (pos : Z -> Z) (columns : Z)
    (body : DataFrame -> Z -> outcome DataFrame) :
  (forall c, 0 <= c -> 0 <= pos c) ->
  (forall d c,
      body d c
      = (let! col_data :=
           for_each (range 0 num_rows 1) []
             (fun col_data row_idx =>
                let row_offset := data_start + row_idx * bytes_per_row in
                let offset := row_offset + pos c * 4 in
                if offset + 4 <=? len buf then
                  let! value := unpack_f (slice buf offset (offset + 4)) in
                  Ret (col_data ++ [value])
                else Ret (col_data ++ [np_nan])) in
         Ret (dict_set d (col_name c) col_data))) ->
  for_each (range 0 columns 1) [] body
  = Ret (table_of buf data_start bytes_per_row num_rows pos columns).
Proof.
  intros Hpos Hbody.
  rewrite (for_each_dict _ col_name
             (fun c => map (fun r => cell_at buf
                                       (data_start + r * bytes_per_row
                                        + pos c * 4))
                           (range 0 num_rows 1))).
  - reflexivity.
  - intros d c Hc. apply in_range_0_1 in Hc.
    rewrite Hbody, row_loop_cells by (specialize (Hpos c); lia).
    reflexivity.
  - apply col_names_nodup.
  - intros c _ [].
Qed.

Lemma _parse_interleaved_table :
  _parse_interleaved buf data_start bytes_per_row num_rows
  = Ret (table_of buf data_start bytes_per_row num_rows (fun c => c * 2) 516).
Proof.
  unfold _parse_interleaved.
  apply column_loop_table; [intros; lia | reflexivity].
Qed.

Lemma _parse_non_interleaved_table :
  _parse_non_interleaved buf data_start bytes_per_row num_rows
  = Ret (table_of buf data_start bytes_per_row num_rows (fun c => c)
           (bytes_per_row / 4)).
Proof.
  unfold _parse_non_interleaved.
  apply column_loop_table; [intros; lia | reflexivity].
Qed.

Lemma table_of_cell (pos : Z -> Z) (columns r c : Z) :
  0 <= r < num_rows -> 0 <= c < columns ->
  df_cell (table_of buf data_start bytes_per_row num_rows pos columns) r c
  = Some (cell_at buf (data_start + r * bytes_per_row + pos c * 4)).
Proof.
  intros Hr Hc. unfold df_cell, table_of.
  replace (r <? 0) with false by (symmetry; apply Z.ltb_ge; lia).
  replace (c <? 0) with false by (symmetry; apply Z.ltb_ge; lia).
  cbn [orb]. rewrite nth_error_map, nth_error_range_0_1 by lia.
  cbn [option_map]. rewrite nth_error_map, nth_error_range_0_1 by lia.
  reflexivity.
Qed.

End Decoder.

Lemma parse_table (self : UniversalDLParser) :
  0 <= data_start (self_format_info self) ->
  0 <= bytes_per_row (self_format_info self) ->
  parse self
  = Ret (table_of (dl_data self)
           (data_start (self_format_info self))
           (bytes_per_row (self_format_info self))
           (num_rows (self_format_info self))
           (fun c => if interleaved (self_format_info self) then c * 2 else c)
           (if interleaved (self_format_info self) then 516
            else bytes_per_row (self_format_info self) / 4)).
Proof.
  intros Hds Hbpr. unfold parse.
  destruct (interleaved (self_format_info self)).
  - now apply _parse_interleaved_table.
  - now apply _parse_non_interleaved_table.
Qed.

(** C5: for a descriptor with a non-negative data start and
    bytes_per_row = floats_per_row * 4 >= 0 (as every detected descriptor
    has), decoding raises nothing, and for every row r in [0, row_count)
    and slot c (516 slots when interleaved, floats_per_row otherwise) the
    cell (r, c) is decided by the byte offset
    data_start + r * bytes_per_row + (interleaved ? c * 2 : c) * 4: a
    missing value when the offset plus 4 exceeds the buffer length, and
    otherwise the little-endian binary32 float stored in those 4 bytes. *)
Theorem decode_cell_by_offset :
  forall self : UniversalDLParser,
    let info := self_format_info self in
    let buf := dl_data self in
    0 <= data_start info ->
    0 <= floats_per_row info ->
    bytes_per_row info = floats_per_row info * 4 ->
    exists df,
      parse self = Ret df
      /\ forall r c,
           0 <= r < num_rows info ->
           0 <= c < (if interleaved info then 516 else floats_per_row info) ->
           let offset :=
             data_start info + r * bytes_per_row info
             + (if interleaved info then c * 2 else c) * 4 in
           (len buf < offset + 4 -> df_cell df r c = Some np_nan)
           /\ (offset + 4 <= len buf ->
               exists value,
                 float32_at buf offset = Some value
                 /\ df_cell df r c = Some value).
Proof.
  intros self info buf Hds Hfpr Hbpr.
  eexists. split; [apply parse_table; fold info; lia|].
  fold info buf. intros r c Hr Hc offset.
  assert (Hcols : (if interleaved info then 516 else bytes_per_row info / 4)
                  = (if interleaved info then 516 else floats_per_row info)).
  { destruct (interleaved info); [reflexivity|].
    rewrite Hbpr. apply Z.div_mul. lia. }
  rewrite table_of_cell by (rewrite ?Hcols; lia).
  assert (Hoff : 0 <= offset).
  { unfold offset. destruct (interleaved info); nia. }
  fold offset. split.
  - intros Hout. now rewrite cell_at_missing.
  - intros Hin. destruct (cell_at_present buf offset Hoff Hin) as (v & Hv & ->).
    exists v. now split.
Qed.

(** Witness for C5: in the 2-by-2 reading of three floats, cell (0, 1) is
    the second float and cell (1, 1) lies past the end of the buffer. *)
Lemma decode_cell_by_offset_witness :
  exists df,
    parse two_by_two = Ret df
    /\ df_cell df 0 1 = float32_at three_floats 4
    /\ float32_at three_floats 4 = Some (S754_finite false 9830400 (-18))
    /\ df_cell df 1 1 = Some np_nan.
Proof.
  destruct (decode_cell_by_offset two_by_two) as (df & Hdf & Hcell).
  - cbn. lia.
  - cbn. lia.
  - reflexivity.
  - exists df. split; [exact Hdf|].
    destruct (Hcell 0 1) as (_ & Hin); [cbn; lia | cbn; lia |].
    destruct Hin as (v & Hv & Hc); [vm_compute; discriminate|].
    destruct (Hcell 1 1) as (Hout & _); [cbn; lia | cbn; lia |].
    split; [cbn in Hv; rewrite Hv; exact Hc|].
    split; [vm_compute; reflexivity|].
    apply Hout. vm_compute. reflexivity.
Defined.

(** C10: in an interleaved decode with bytes_per_row = 1030 * 4, the byte
    offset of slot 515 of row r is data_start + (r + 1) * bytes_per_row, the
    first bytes of the next row; so the cell (r, 515) equals the cell
    (r + 1, 0) whenever r + 1 < row_count, and when the buffer ends exactly
    at data_start + row_count * bytes_per_row the cell (row_count - 1, 515)
    is missing while every other cell is a float read from the buffer. *)
Theorem interleaved_last_slot_is_next_row :
  forall self : UniversalDLParser,
    let info := self_format_info self in
    let buf := dl_data self in
    interleaved info = true ->
    bytes_per_row info = 1030 * 4 ->
    0 <= data_start info ->
    exists df,
      parse self = Ret df
      /\ (forall r,
             data_start info + r * bytes_per_row info + (515 * 2) * 4
             = data_start info + (r + 1) * bytes_per_row info)
      /\ (forall r,
             0 <= r -> r + 1 < num_rows info ->
             df_cell df r 515 = df_cell df (r + 1) 0
             /\ df_cell df r 515
                = Some (cell_at buf (data_start info
                                     + (r + 1) * bytes_per_row info)))
      /\ (0 < num_rows info ->
          len buf = data_start info + num_rows info * bytes_per_row info ->
          df_cell df (num_rows info - 1) 515 = Some np_nan
          /\ forall r c,
               0 <= r < num_rows info -> 0 <= c < 516 ->
               (r, c) <> (num_rows info - 1, 515) ->
               exists value,
                 float32_at buf (data_start info + r * bytes_per_row info
                                 + (c * 2) * 4) = Some value
                 /\ df_cell df r c = Some value).
Proof.
  intros self info buf Hil Hbpr Hds.
  eexists. split; [apply parse_table; fold info; lia|].
  fold info buf. rewrite Hil, Hbpr.
  split; [intros r; lia|]. split.
  - intros r Hr Hnext. rewrite !table_of_cell by lia.
    split; f_equal; f_equal; lia.
  - intros Hrows Hlen. split.
    + rewrite table_of_cell by lia. rewrite cell_at_missing; [reflexivity|].
      rewrite Hlen. lia.
    + intros r c Hr Hc Hne. rewrite table_of_cell by lia.
      assert (Hin : data_start info + r * (1030 * 4) + c * 2 * 4 + 4
                    <= len buf).
      { rewrite Hlen.
        destruct (Z.eq_dec r (num_rows info - 1)) as [-> | Hr'].
        - destruct (Z.eq_dec c 515) as [-> | Hc']; [congruence | lia].
        - nia. }
      assert (Hoff : 0 <= data_start info + r * (1030 * 4) + c * 2 * 4)
        by lia.
      destruct (cell_at_present buf _ Hoff Hin) as (v & Hv & ->).
      exists v. now split.
Qed.

(** Witness for C10: two whole zero rows after offset 16456. *)
Lemma interleaved_last_slot_is_next_row_witness :
  exists df,
    parse two_rows_v6 = Ret df
    /\ df_cell df 0 515 = df_cell df 1 0
    /\ df_cell df 1 515 = Some np_nan
    /\ df_cell df 1 514 = Some (S754_zero false).
Proof.
  destruct (interleaved_last_slot_is_next_row two_rows_v6)
    as (df & Hdf & _ & Hnext & Hlast).
  - reflexivity.
  - reflexivity.
  - cbn. lia.
  - exists df. split; [exact Hdf|].
    destruct (Hnext 0) as (Heq & _); [lia | cbn; lia |].
    split; [exact Heq|].
    destruct Hlast as (Hmiss & Hread);
      [cbn; lia | vm_compute; reflexivity |].
    split; [exact Hmiss|].
    destruct (Hread 1 514) as (v & Hv & Hc);
      [cbn; lia | lia | cbn; intros H; discriminate H |].
    rewrite Hc. f_equal.
    assert (Hz : float32_at (dl_data two_rows_v6)
                   (data_start (self_format_info two_rows_v6)
                    + 1 * bytes_per_row (self_format_info two_rows_v6)
                    + 514 * 2 * 4) = Some (S754_zero false))
      by (vm_compute; reflexivity).
    rewrite Hz in Hv. now injection Hv.
Defined.

(** ** Detected descriptors meet the decoder's assumptions *)

Lemma _detect_v5_v6_candidate_fields (buf : bytes) (field_08 off : Z)
    (info : format_info) :
  _detect_v5_v6_candidate buf field_08 off = Some info ->
  data_start info = off - 4 * 4
  /\ floats_per_row info = 1030
  /\ bytes_per_row info = 1030 * 4
  /\ interleaved info = true.
Proof.
  unfold _detect_v5_v6_candidate.
  destruct (unpack_f (slice buf off (off + 4))) as [val | e |];
    cbn [bind try_pass]; try discriminate.
  destruct (int_lt_float 300 val && float_lt_int val 10000);
    cbn [try_pass]; try discriminate.
  destruct ((len buf - (off - 4 * 4)) mod (1030 * 4) <? 100);
    cbn [try_pass]; try discriminate.
  destruct (off - 4 * 4 + 66 * 4 + 4 <=? len buf);
    cbn [try_pass]; try discriminate.
  destruct (unpack_f _) as [tps | e |]; cbn [bind try_pass]; try discriminate.
  destruct (int_le_float 0 tps && float_le_int tps 100);
    cbn [try_pass]; try discriminate.
  intros H. injection H as <-. now repeat split.
Qed.

(** Every descriptor that detection returns has a non-negative data
    start and bytes_per_row = floats_per_row * 4 >= 0. *)
Lemma detect_format_descriptor (buf : bytes) (info : format_info) :
  detect_format buf = Ret (Some info) ->
  0 <= data_start info
  /\ 0 <= floats_per_row info
  /\ bytes_per_row info = floats_per_row info * 4.
Proof.
  intros Hd.
  destruct (Z.lt_ge_cases (len buf) 32) as [Hshort | Hlen].
  { rewrite detect_format_short in Hd by exact Hshort. discriminate Hd. }
  destruct (le32_at_in_range buf 0) as [m Hm]; [lia | lia |].
  destruct (detect_format_dispatch buf m Hlen Hm) as (field_08 & _ & Heq).
  rewrite Heq in Hd. clear Heq.
  destruct (m =? MAGIC_V3).
  - apply Ret_inj in Hd. unfold _detect_v3_format, range in Hd.
    apply for_return_first in Hd. destruct Hd as (k & _ & Hbody & _).
    cbn [fst snd V3_DATA_START_RANGE] in Hbody.
    destruct (_detect_v3_candidate_checks buf field_08
                (1000 + Z.of_nat k * 100)) as [Hsome _]; [lia|].
    destruct (Hsome info Hbody) as (_ & -> & _ & -> & -> & _). lia.
  - destruct (m =? MAGIC_V5_V6); [|discriminate Hd].
    unfold _detect_v5_v6_format in Hd.
    destruct (field_08 =? VERSION_V6).
    + destruct ((_ >? 0) && _); [|discriminate Hd].
      apply Ret_inj in Hd. injection Hd as <-. cbn. unfold V6_DATA_START. lia.
    + destruct (field_08 =? VERSION_V5); [discriminate Hd|].
      apply Ret_inj in Hd. unfold _detect_v5_v6_heuristic, range in Hd.
      apply for_return_first in Hd. destruct Hd as (k & _ & Hbody & _).
      apply _detect_v5_v6_candidate_fields in Hbody.
      destruct Hbody as (-> & -> & -> & _). lia.
Qed.

(** Once construction has succeeded, [parse] raises nothing. *)
Lemma parse_after_init (name : string) (buf : bytes)
    (self : UniversalDLParser) :
  __init__ name buf = Ret self -> exists df, parse self = Ret df.
Proof.
  unfold __init__. intros Hinit.
  destruct (detect_format buf) as [[info|] | e |] eqn:Hd;
    cbn [bind] in Hinit; try discriminate Hinit.
  apply Ret_inj in Hinit. subst self.
  destruct (detect_format_descriptor buf info Hd) as (Hds & Hfpr & Hbpr).
  eexists. apply parse_table; cbn; lia.
Qed.

(** * Further properties of the decompressor *)

(** ** Byte swap and concatenation *)

Lemma byteswap_spec_app (n : nat) :
  forall a b : bytes,
    List.length a = (4 * n)%nat ->
    byteswap_spec (a ++ b) = byteswap_spec a ++ byteswap_spec b.
Proof.
  induction n as [|n IH]; intros a b Hlen.
  - destruct a; [reflexivity | simpl in Hlen; lia].
  - destruct a as [|a0 [|a1 [|a2 [|a3 rest]]]]; simpl in Hlen; try lia.
    change ((a0 :: a1 :: a2 :: a3 :: rest) ++ b)
      with (a0 :: a1 :: a2 :: a3 :: (rest ++ b)).
    cbn [byteswap_spec]. rewrite (IH rest b) by lia. reflexivity.
Qed.

(** X1: A prefix made of whole four-byte groups is swapped on its own:
    [_byte_swap] distributes over the concatenation. *)
Theorem byte_swap_app_aligned :
  forall a b : bytes,
    (List.length a mod 4 = 0)%nat ->
    _byte_swap (a ++ b) = _byte_swap a ++ _byte_swap b.
Proof.
  intros a b Hmod. rewrite !_byte_swap_spec.
  apply (byteswap_spec_app (List.length a / 4)).
  pose proof (Nat.div_mod_eq (List.length a) 4). lia.
Qed.

Lemma byte_swap_app_aligned_witness :
  _byte_swap ([x01; x02; x03; x04] ++ [x05; x06])
  = _byte_swap [x01; x02; x03; x04] ++ _byte_swap [x05; x06].
Proof. apply byte_swap_app_aligned. reflexivity. Defined.

Lemma byteswap_spec_perm (x : bytes) : Permutation (byteswap_spec x) x.
Proof.
  induction x as [x IH] using (well_founded_induction
    (Wf_nat.well_founded_ltof _ (@List.length byte))).
  destruct x as [|a [|b [|c [|d rest]]]]; try apply Permutation_refl.
  cbn [byteswap_spec].
  transitivity (d :: c :: b :: a :: rest).
  - repeat apply perm_skip. apply IH. unfold Wf_nat.ltof. simpl. lia.
  - change (d :: c :: b :: a :: rest) with (List.rev [a; b; c; d] ++ rest).
    change (a :: b :: c :: d :: rest) with ([a; b; c; d] ++ rest).
    apply Permutation_app_tail. symmetry. apply Permutation_rev.
Qed.

(** X2: [_byte_swap] only reorders: its output is a permutation of its input,
    so it holds the byte 0xFF exactly as often and is marker-free exactly
    when the input is. *)
Theorem byte_swap_permutes :
  forall x : bytes,
    Permutation (_byte_swap x) x
    /\ count_occ Byte.byte_eq_dec (_byte_swap x) xff
       = count_occ Byte.byte_eq_dec x xff
    /\ (marker_free (_byte_swap x) <-> marker_free x).
Proof.
  intros x. rewrite _byte_swap_spec.
  pose proof (byteswap_spec_perm x) as Hperm.
  split; [exact Hperm|]. split.
  - now apply Permutation_count_occ.
  - unfold marker_free. split; intros Hfree Hin; apply Hfree.
    + eapply Permutation_in; [symmetry|]; eassumption.
    + eapply Permutation_in; eassumption.
Qed.

Lemma byte_swap_permutes_witness :
  marker_free (_byte_swap [x01; x02; x03; x04; x05]).
Proof.
  apply (byte_swap_permutes [x01; x02; x03; x04; x05]).
  unfold marker_free. simpl.
  intros [H | [H | [H | [H | [H | []]]]]]; discriminate H.
Defined.

(** ** Run-length decoding and concatenation *)

Lemma rle_spec_complete_app (p s : bytes) :
  complete p -> rle_spec (p ++ s) = rle_spec p ++ rle_spec s.
Proof.
  induction 1 as [|b rest Hb _ IH | count value rest _ IH].
  - reflexivity.
  - cbn [Datatypes.app rle_spec].
    destruct (Byte.eqb b xff) eqn:E.
    + apply Byte.byte_dec_bl in E. contradiction.
    + now rewrite IH.
  - cbn [Datatypes.app rle_spec]. change (Byte.eqb xff xff) with true. cbv iota.
    rewrite IH. now rewrite app_assoc.
Qed.

Lemma marker_free_complete (p : bytes) : marker_free p -> complete p.
Proof.
  unfold marker_free. induction p as [|b rest IH]; intros Hfree.
  - constructor.
  - constructor.
    + intros ->. apply Hfree. now left.
    + apply IH. intros Hin. apply Hfree. now right.
Qed.

(** X3: decoding composes over a token boundary: when the first part is a
    sequence of literals and whole groups, the decoding of a
    concatenation is the concatenation of the decodings. *)
Theorem rle_decode_app_complete :
  forall p s : bytes,
    complete p ->
    exists out_p out_s,
      _rle_decompress p = Ret out_p
      /\ _rle_decompress s = Ret out_s
      /\ _rle_decompress (p ++ s) = Ret (out_p ++ out_s).
Proof.
  intros p s Hp. exists (rle_spec p), (rle_spec s).
  rewrite !_rle_decompress_spec. repeat split.
  now rewrite rle_spec_complete_app.
Qed.

Lemma rle_decode_app_complete_witness :
  exists out_p out_s,
    _rle_decompress [x41; xff; x02; x07] = Ret out_p
    /\ _rle_decompress [xff; x00; x00; x42] = Ret out_s
    /\ _rle_decompress ([x41; xff; x02; x07] ++ [xff; x00; x00; x42])
       = Ret (out_p ++ out_s).
Proof.
  apply rle_decode_app_complete.
  apply complete_literal; [discriminate|].
  apply complete_group. apply complete_nil.
Defined.

(** X4: A marker in the last or next-to-last position of the input is
    emitted as one literal 0xFF and ends the decoding: a byte that follows
    it is dropped. *)
Theorem rle_decode_truncated_group :
  forall (p : bytes) (b : byte),
    complete p ->
    exists out,
      _rle_decompress p = Ret out
      /\ _rle_decompress (p ++ [xff]) = Ret (out ++ [xff])
      /\ _rle_decompress (p ++ [xff; b]) = Ret (out ++ [xff]).
Proof.
  intros p b Hp. exists (rle_spec p).
  rewrite !_rle_decompress_spec, !rle_spec_complete_app by exact Hp.
  repeat split.
Qed.

Lemma rle_decode_truncated_group_witness :
  exists out,
    _rle_decompress [x41; x42] = Ret out
    /\ _rle_decompress ([x41; x42] ++ [xff]) = Ret (out ++ [xff])
    /\ _rle_decompress ([x41; x42] ++ [xff; x43]) = Ret (out ++ [xff]).
Proof.
  apply rle_decode_truncated_group.
  repeat (apply complete_literal; [discriminate|]). apply complete_nil.
Defined.

Lemma rle_input_cases :
  forall x : bytes,
    exists p,
      complete p
      /\ (x = p \/ x = p ++ [xff] \/ exists b, x = p ++ [xff; b]).
Proof.
  intros x.
  induction x as [x IH] using (well_founded_induction
    (Wf_nat.well_founded_ltof _ (@List.length byte))).
  destruct x as [|b rest].
  { exists []. split; [constructor | now left]. }
  destruct (Byte.byte_eq_dec b xff) as [-> | Hb].
  - destruct rest as [|count [|value rest']].
    + exists []. split; [constructor | right; now left].
    + exists []. split; [constructor | right; right; now exists count].
    + destruct (IH rest') as (p & Hp & Hshape);
        [unfold Wf_nat.ltof; simpl; lia|].
      exists (xff :: count :: value :: p). split; [now constructor|].
      destruct Hshape as [-> | [-> | [b' ->]]];
        [now left | right; now left | right; right; now exists b'].
  - destruct (IH rest) as (p & Hp & Hshape);
      [unfold Wf_nat.ltof; simpl; lia|].
    exists (b :: p). split; [now constructor|].
    destruct Hshape as [-> | [-> | [b' ->]]];
      [now left | right; now left | right; right; now exists b'].
Qed.

(** X5: every input is a sequence of literals and whole groups, followed by
    nothing or by a cut-off group of one or two bytes; the decoder decodes
    the sequence and, for a cut-off group, appends one 0xFF.  So at most
    the one byte after a final marker is lost. *)
Theorem rle_decode_input_shape :
  forall x : bytes,
    exists p out,
      complete p
      /\ _rle_decompress p = Ret out
      /\ ((x = p /\ _rle_decompress x = Ret out)
          \/ ((x = p ++ [xff] \/ exists b, x = p ++ [xff; b])
              /\ _rle_decompress x = Ret (out ++ [xff]))).
Proof.
  intros x. destruct (rle_input_cases x) as (p & Hp & Hshape).
  exists p, (rle_spec p). split; [exact Hp|].
  split; [apply _rle_decompress_spec|].
  destruct Hshape as [-> | [-> | [b ->]]].
  - left. split; [reflexivity | apply _rle_decompress_spec].
  - right. split; [now left|].
    rewrite _rle_decompress_spec, rle_spec_complete_app by exact Hp.
    reflexivity.
  - right. split; [right; now exists b|].
    rewrite _rle_decompress_spec, rle_spec_complete_app by exact Hp.
    reflexivity.
Qed.

(** ** Size of the decoded output *)

Lemma int_of_byte_range (b : byte) : 0 <= int_of_byte b <= 255.
Proof.
  destruct b; vm_compute; split; discriminate.
Qed.

Lemma rle_spec_length (x : bytes) :
  (List.length x <= 3 * List.length (rle_spec x)
   /\ List.length (rle_spec x) <= 85 * List.length x)%nat.
Proof.
  induction x as [x IH] using (well_founded_induction
    (Wf_nat.well_founded_ltof _ (@List.length byte))).
  destruct x as [|b rest]; [simpl; lia|].
  cbn [rle_spec]. destruct (Byte.eqb b xff).
  - destruct rest as [|count [|value rest']]; [simpl; lia | simpl; lia |].
    destruct (IH rest') as [Hlo Hhi]; [unfold Wf_nat.ltof; simpl; lia|].
    rewrite length_app. cbn [List.length].
    pose proof (int_of_byte_range count) as Hc.
    destruct (Z.eqb_spec (int_of_byte count) 0) as [Hz | Hnz].
    + cbn [List.length]. lia.
    + rewrite repeat_length. lia.
  - destruct (IH rest) as [Hlo Hhi]; [unfold Wf_nat.ltof; simpl; lia|].
    cbn [List.length]. lia.
Qed.

(** X6: the decoded output is at least a third of the input long and at most
    85 times as long, for the decoder alone and for the whole
    decompression. *)
Theorem decompressed_size_bounds :
  forall x : bytes,
    exists decoded out,
      _rle_decompress x = Ret decoded
      /\ decompress_dlz x = Ret out
      /\ (List.length x <= 3 * List.length decoded)%nat
      /\ (List.length decoded <= 85 * List.length x)%nat
      /\ (List.length x <= 3 * List.length out)%nat
      /\ (List.length out <= 85 * List.length x)%nat.
Proof.
  intros x. exists (rle_spec x), (byteswap_spec (rle_spec (byteswap_spec x))).
  split; [apply _rle_decompress_spec|]. split.
  { unfold decompress_dlz. rewrite _rle_decompress_spec. cbn [bind].
    now rewrite !_byte_swap_spec. }
  pose proof (rle_spec_length x) as [H1 H2].
  pose proof (rle_spec_length (byteswap_spec x)) as [H3 H4].
  rewrite byteswap_spec_length in *. lia.
Qed.

(** X7: compressed data without any 0xFF byte decompresses to itself. *)
Theorem decompress_marker_free_id :
  forall x : bytes, marker_free x -> decompress_dlz x = Ret x.
Proof.
  intros x Hfree. unfold decompress_dlz.
  rewrite _rle_decompress_spec. cbn [bind].
  rewrite rle_spec_marker_free.
  - rewrite !_byte_swap_spec. now rewrite byteswap_spec_involutive.
  - rewrite _byte_swap_spec. unfold marker_free in *. intros Hin.
    apply Hfree. eapply Permutation_in; [apply byteswap_spec_perm | exact Hin].
Qed.

Lemma decompress_marker_free_id_witness :
  decompress_dlz [x1f; xf4; x85; x00; x06; x07]
  = Ret [x1f; xf4; x85; x00; x06; x07].
Proof.
  apply decompress_marker_free_id. unfold marker_free. simpl.
  intros [H | [H | [H | [H | [H | [H | []]]]]]]; discriminate H.
Defined.

(** ** Header analysis of a compressed file *)

Lemma for_break_first {B} (f : nat -> Z) (body : Z -> outcome (option B))
    (n s : nat) :
  (forall k, (s <= k < s + n)%nat -> exists r, body (f k) = Ret r) ->
  exists res,
    for_break (map f (seq s n)) body = Ret res
    /\ match res with
       | Some v =>
           exists k, (s <= k < s + n)%nat
                     /\ body (f k) = Ret (Some v)
                     /\ forall j, (s <= j < k)%nat -> body (f j) = Ret None
       | None => forall j, (s <= j < s + n)%nat -> body (f j) = Ret None
       end.
Proof.
  revert s. induction n as [|n IH]; intros s Htotal.
  - exists None. split; [reflexivity|]. intros j Hj. lia.
  - cbn [seq map for_break].
    destruct (Htotal s) as [[v|] Hs]; [lia | |]; rewrite Hs; cbn [bind].
    + exists (Some v). split; [reflexivity|]. exists s.
      split; [lia|]. split; [exact Hs|]. intros j Hj. lia.
    + destruct (IH (S s)) as (res & Hres & Hshape).
      { intros k Hk. apply Htotal. lia. }
      exists res. split; [exact Hres|]. destruct res as [v|].
      * destruct Hshape as (k & Hk & Hbody & Hbefore).
        exists k. split; [lia|]. split; [exact Hbody|].
        intros j Hj. destruct (Nat.eq_dec j s) as [-> | Hne]; [exact Hs|].
        apply Hbefore. lia.
      * intros j Hj. destruct (Nat.eq_dec j s) as [-> | Hne]; [exact Hs|].
        apply Hshape. lia.
Qed.

Lemma nth_error_in_range {A} (data : list A) (k : Z) :
  0 <= k < len data -> exists x, nth_error data (Z.to_nat k) = Some x.
Proof.
  intros Hk. destruct (nth_error data (Z.to_nat k)) as [x|] eqn:E.
  - now exists x.
  - apply nth_error_None in E. unfold len in Hk. lia.
Qed.

Lemma printable_at_end (data : bytes) : ~ printable_at data (len data).
Proof.
  intros (b & Hb & _).
  assert (Hlt : (Z.to_nat (len data) < List.length data)%nat)
    by (apply nth_error_Some; congruence).
  unfold len in Hlt. lia.
Qed.

(** The test for four printable bytes answers [text_starts_at]. *)
Lemma py_all_printable (data : bytes) (start : Z) :
  0 <= start -> start + 4 <= len data ->
  exists found,
    py_all (range 0 4 1)
      (fun j => let! b := getitem data (start + j) in Ret (printable b))
    = Ret found
    /\ (found = true <-> text_starts_at data start).
Proof.
  intros Hstart Hlen.
  change (range 0 4 1) with [0; 1; 2; 3].
  destruct (nth_error_in_range data (start + 0)) as [b0 H0]; [lia|].
  destruct (nth_error_in_range data (start + 1)) as [b1 H1]; [lia|].
  destruct (nth_error_in_range data (start + 2)) as [b2 H2]; [lia|].
  destruct (nth_error_in_range data (start + 3)) as [b3 H3]; [lia|].
  assert (Hat : forall j b,
             nth_error data (Z.to_nat (start + j)) = Some b ->
             printable_at data (start + j) <-> printable b = true).
  { intros j b Hb. unfold printable_at. split.
    - intros (b' & Hb' & Hp). congruence.
    - intros Hp. now exists b. }
  assert (Hall : text_starts_at data start
                 <-> printable b0 = true /\ printable b1 = true
                     /\ printable b2 = true /\ printable b3 = true).
  { unfold text_starts_at. split.
    - intros Hj. repeat split;
        [apply (Hat 0 b0 H0) | apply (Hat 1 b1 H1)
         | apply (Hat 2 b2 H2) | apply (Hat 3 b3 H3)]; apply Hj; lia.
    - intros (P0 & P1 & P2 & P3) j Hj.
      assert (Hcase : j = 0 \/ j = 1 \/ j = 2 \/ j = 3) by lia.
      destruct Hcase as [-> | [-> | [-> | ->]]];
        [apply (Hat 0 b0 H0) | apply (Hat 1 b1 H1)
         | apply (Hat 2 b2 H2) | apply (Hat 3 b3 H3)]; assumption. }
  cbn [py_all].
  rewrite (getitem_nth data (start + 0) b0), (getitem_nth data (start + 1) b1),
    (getitem_nth data (start + 2) b2), (getitem_nth data (start + 3) b3)
    by (assumption || lia).
  cbn [bind].
  destruct (printable b0); [|exists false; split; [reflexivity|]; rewrite Hall; split;
                             [discriminate | intros (? & _); congruence]].
  destruct (printable b1); [|exists false; split; [reflexivity|]; rewrite Hall; split;
                             [discriminate | intros (_ & ? & _); congruence]].
  destruct (printable b2); [|exists false; split; [reflexivity|]; rewrite Hall; split;
                             [discriminate
                             | intros (_ & _ & ? & _); congruence]].
  destruct (printable b3); [|exists false; split; [reflexivity|]; rewrite Hall; split;
                             [discriminate
                             | intros (_ & _ & _ & ?); congruence]].
  exists true. split; [reflexivity|]. rewrite Hall. now repeat split.
Qed.

(** The [while] loop stops, within the fuel given, at the end of the run
    of printable bytes. *)
Lemma text_end_loop_spec (data : bytes) (fuel : nat) :
  forall e : Z,
    0 <= e <= len data -> len data - e <= Z.of_nat fuel ->
    exists e',
      text_end_loop fuel data e = Ret e'
      /\ e <= e' <= len data
      /\ (forall k, e <= k < e' -> printable_at data k)
      /\ ~ printable_at data e'.
Proof.
  induction fuel as [|fuel IH]; intros e He Hfuel.
  - assert (e = len data) by lia. subst e. exists (len data).
    cbn [text_end_loop]. rewrite Z.ltb_irrefl.
    split; [reflexivity|]. split; [lia|]. split; [intros k Hk; lia|].
    apply printable_at_end.
  - cbn [text_end_loop].
    destruct (Z.ltb_spec e (len data)) as [Hin | Hend].
    + destruct (nth_error_in_range data e) as [b Hb]; [lia|].
      rewrite (getitem_nth data e b) by (assumption || lia). cbn [bind].
      destruct (printable b) eqn:Hp.
      * destruct (IH (e + 1)) as (e' & Hrun & Hbound & Hprint & Hstop);
          [lia | lia |].
        exists e'. split; [exact Hrun|]. split; [lia|].
        split; [|exact Hstop].
        intros k Hk. destruct (Z.eq_dec k e) as [-> | Hne].
        -- now exists b.
        -- apply Hprint. lia.
      * exists e. split; [reflexivity|]. split; [lia|].
        split; [intros k Hk; lia|].
        intros (b' & Hb' & Hp'). congruence.
    + assert (e = len data) by lia. subst e. exists (len data).
      split; [reflexivity|]. split; [lia|]. split; [intros k Hk; lia|].
      apply printable_at_end.
Qed.

Lemma nth_error_slice {A} (data : list A) (lo hi : Z) (i : nat) :
  0 <= lo -> lo <= hi -> Z.of_nat i < hi - lo ->
  nth_error (slice data lo hi) i = nth_error data (Z.to_nat lo + i).
Proof.
  intros Hlo Hhi Hi. rewrite slice_firstn_skipn by lia.
  rewrite nth_error_firstn.
  replace (i <? Z.to_nat (hi - lo))%nat with true
    by (symmetry; apply Nat.ltb_lt; lia).
  apply nth_error_skipn.
Qed.

Lemma slice_length_inside {A} (data : list A) (lo hi : Z) :
  0 <= lo -> lo <= hi -> hi <= len data ->
  List.length (slice data lo hi) = Z.to_nat (hi - lo).
Proof.
  intros Hlo Hhi Hin. rewrite slice_firstn_skipn by lia.
  rewrite length_firstn, length_skipn. unfold len in Hin. lia.
Qed.

Lemma filter_all {A} (f : A -> bool) (l : list A) :
  Forall (fun x => f x = true) l -> filter f l = l.
Proof.
  induction 1 as [|x l Hx _ IH]; cbn [filter]; [reflexivity|].
  now rewrite Hx, IH.
Qed.

Lemma string_of_list_byte_length (l : bytes) :
  String.length (string_of_list_byte l) = List.length l.
Proof.
  unfold string_of_list_byte. induction l as [|b l IH]; cbn; [reflexivity|].
  now rewrite IH.
Qed.

Lemma printable_below_128 (b : byte) :
  printable b = true -> (int_of_byte b <? 128) = true.
Proof.
  unfold printable. intros H. apply andb_true_iff in H as [_ H].
  apply Z.ltb_lt in H. apply Z.ltb_lt. lia.
Qed.

(** A run of printable bytes is decoded byte for byte. *)
Lemma decode_printable_run (data : bytes) (start e : Z) :
  0 <= start -> start <= e -> e <= len data ->
  (forall k, start <= k < e -> printable_at data k) ->
  decode_ascii_ignore (slice data start e)
  = string_of_list_byte (slice data start e).
Proof.
  intros Hs He Hlen Hrun. unfold decode_ascii_ignore. f_equal.
  apply filter_all. apply Forall_forall. intros b Hin.
  apply In_nth_error in Hin. destruct Hin as [i Hi].
  assert (Hlt : (i < List.length (slice data start e))%nat)
    by (apply nth_error_Some; congruence).
  rewrite slice_length_inside in Hlt by lia.
  rewrite nth_error_slice in Hi by lia.
  destruct (Hrun (start + Z.of_nat i)) as (b' & Hb' & Hp); [lia|].
  replace (Z.to_nat (start + Z.of_nat i)) with (Z.to_nat start + i)%nat
    in Hb' by lia.
  rewrite Hi in Hb'. injection Hb' as <-. now apply printable_below_128.
Qed.

(** The embedded-text scan of [analyze_dlz_header]: it raises nothing,
    and it stops at the first index of the window where four printable
    bytes start, taking the whole run of printable bytes from there. *)
Lemma embedded_text_scan (data : bytes) :
  exists text,
    for_break (range 32 (Z.min 200 (len data - 4)) 1)
      (fun start =>
         let! found :=
           py_all (range 0 4 1)
             (fun j =>
                let! b := getitem data (start + j) in
                Ret (printable b)) in
         if found then
           let! end_ := text_end_loop (List.length data) data start in
           if end_ - start >=? 4 then
             Ret (Some (decode_ascii_ignore (slice data start end_)))
           else Ret None
         else Ret None)
    = Ret text
    /\ match text with
       | Some t =>
           exists start e,
             32 <= start < Z.min 200 (len data - 4)
             /\ start + 4 <= e <= len data
             /\ t = string_of_list_byte (slice data start e)
             /\ String.length t = Z.to_nat (e - start)
             /\ (forall k, start <= k < e -> printable_at data k)
             /\ ~ printable_at data e
             /\ (forall earlier,
                    32 <= earlier < start -> ~ text_starts_at data earlier)
       | None =>
           forall start,
             32 <= start < Z.min 200 (len data - 4) ->
             ~ text_starts_at data start
       end.
Proof.
  set (body := fun start : Z => _).
  assert (Hbody : forall start,
             32 <= start < Z.min 200 (len data - 4) ->
             (body start = Ret None /\ ~ text_starts_at data start)
             \/ (exists e,
                    body start
                    = Ret (Some (string_of_list_byte (slice data start e)))
                    /\ text_starts_at data start
                    /\ start + 4 <= e <= len data
                    /\ (forall k, start <= k < e -> printable_at data k)
                    /\ ~ printable_at data e)).
  { intros start Hstart. unfold body.
    destruct (py_all_printable data start) as (found & -> & Hfound);
      [lia | lia |].
    cbn [bind]. destruct found.
    - right. assert (Hfour : text_starts_at data start) by now apply Hfound.
      destruct (text_end_loop_spec data (List.length data) start)
        as (e & -> & Hbound & Hrun & Hstop); [lia | unfold len; lia |].
      cbn [bind].
      assert (He : start + 4 <= e).
      { destruct (Z.le_gt_cases (start + 4) e) as [H | H]; [exact H|].
        exfalso. apply Hstop.
        replace e with (start + (e - start)) by lia. apply Hfour. lia. }
      exists e.
      replace (e - start >=? 4) with true
        by (symmetry; apply Z.geb_le; lia).
      rewrite decode_printable_run by (assumption || lia).
      repeat split; try assumption; lia.
    - left. split; [reflexivity|]. intros Hfour.
      apply Hfound in Hfour. discriminate Hfour. }
  unfold range.
  replace ((Z.min 200 (len data - 4) - 32 + 1 - 1) / 1)
    with (Z.min 200 (len data - 4) - 32) by (rewrite Z.div_1_r; lia).
  destruct (for_break_first (fun k => 32 + Z.of_nat k * 1) body
              (Z.to_nat (Z.min 200 (len data - 4) - 32)) 0)
    as (text & Hscan & Hshape).
  { intros k Hk.
    destruct (Hbody (32 + Z.of_nat k * 1)) as [[H _] | (e & H & _)];
      [lia | |]; eexists; exact H. }
  exists text. split; [exact Hscan|].
  destruct text as [t|].
  - destruct Hshape as (k & Hk & Hhit & Hbefore).
    destruct (Hbody (32 + Z.of_nat k * 1))
      as [[Hnone _] | (e & Hsome & Hfour & Hbound & Hrun & Hstop)]; [lia | |].
    { rewrite Hnone in Hhit. discriminate Hhit. }
    assert (Ht : t = string_of_list_byte
                       (slice data (32 + Z.of_nat k * 1) e)) by congruence.
    subst t. exists (32 + Z.of_nat k * 1), e.
    split; [lia|]. split; [lia|]. split; [reflexivity|].
    split.
    { rewrite string_of_list_byte_length, slice_length_inside by lia.
      reflexivity. }
    split; [exact Hrun|]. split; [exact Hstop|].
    intros earlier Hearlier Hfour'.
    destruct (Hbody earlier)
      as [[_ Hno] | (e' & Hsome' & _)]; [lia | now apply Hno |].
    specialize (Hbefore (Z.to_nat (earlier - 32))).
    replace (32 + Z.of_nat (Z.to_nat (earlier - 32)) * 1) with earlier
      in Hbefore by lia.
    rewrite Hsome' in Hbefore. discriminate Hbefore. lia.
  - intros start Hstart Hfour.
    destruct (Hbody start) as [[_ Hno] | (e & Hsome & _)];
      [lia | now apply Hno |].
    specialize (Hshape (Z.to_nat (start - 32))).
    replace (32 + Z.of_nat (Z.to_nat (start - 32)) * 1) with start
      in Hshape by lia.
    rewrite Hsome in Hshape. discriminate Hshape. lia.
Qed.

Lemma ff_count_fold (data : bytes) (acc : Z) :
  fold_left (fun n b => if Byte.eqb b xff then n + 1 else n) data acc
  = acc + Z.of_nat (count_occ Byte.byte_eq_dec data xff).
Proof.
  revert acc. induction data as [|b data IH]; intros acc;
    cbn [fold_left count_occ]; [lia|].
  rewrite IH. destruct (Byte.byte_eq_dec b xff) as [-> | Hne].
  - change (Byte.eqb xff xff) with true. cbv iota. lia.
  - destruct (Byte.eqb b xff) eqn:E; [|lia].
    apply Byte.byte_dec_bl in E. contradiction.
Qed.

(** The three exits of [analyze_dlz_header], by length and magic. *)
Lemma analyze_dlz_header_cases (data : bytes) :
  (len data < 32 /\ analyze_dlz_header data
                    = Ret (analysis_invalid "File too small"))
  \/ (exists m,
         32 <= len data /\ le32_at data 0 = Some m
         /\ m <> 0x0085F41F /\ m <> 0x0095365F
         /\ analyze_dlz_header data
            = Ret (analysis_invalid ("Unknown magic: 0x" ++ format_08X m)))
  \/ (exists m text,
         32 <= len data /\ le32_at data 0 = Some m
         /\ (m = 0x0085F41F \/ m = 0x0095365F)
         /\ analyze_dlz_header data
            = Ret (analysis_valid m (len data)
                     (Z.of_nat (count_occ Byte.byte_eq_dec data xff)) text)
         /\ for_break (range 32 (Z.min 200 (len data - 4)) 1)
              (fun start =>
                 let! found :=
                   py_all (range 0 4 1)
                     (fun j =>
                        let! b := getitem data (start + j) in
                        Ret (printable b)) in
                 if found then
                   let! end_ :=
                     text_end_loop (List.length data) data start in
                   if end_ - start >=? 4 then
                     Ret (Some (decode_ascii_ignore
                                  (slice data start end_)))
                   else Ret None
                 else Ret None)
            = Ret text).
Proof.
  unfold analyze_dlz_header.
  destruct (Z.ltb_spec (len data) 32) as [Hshort | Hlen];
    [left; now split|].
  right. destruct (le32_at_in_range data 0) as [m Hm]; [lia | lia |].
  change (slice data 0 4) with (slice data 0 (0 + 4)).
  rewrite unpack_I_slice, Hm by lia. cbn [bind].
  destruct (Z.eqb_spec m 0x0085F41F) as [H56 | H56];
    destruct (Z.eqb_spec m 0x0095365F) as [H3 | H3]; cbn [negb andb].
  4:{ left. exists m. now repeat split. }
  all: right; destruct (embedded_text_scan data) as (text & Hscan & _);
    exists m, text; rewrite Hscan; cbn [bind]; rewrite ff_count_fold;
    repeat split; auto; lia.
Qed.

(** X8: [analyze_dlz_header] raises nothing.  It reports "File too small"
    for fewer than 32 bytes, "Unknown magic" with the magic in eight
    upper-case hexadecimal digits when the magic is neither signature, and
    otherwise a valid analysis with the magic, the length and the number
    of 0xFF bytes of the input. *)
Theorem analyze_dlz_header_verdict :
  forall data : bytes,
    (len data < 32 ->
     analyze_dlz_header data = Ret (analysis_invalid "File too small"))
    /\ (forall m,
           32 <= len data -> le32_at data 0 = Some m ->
           m <> 0x0085F41F -> m <> 0x0095365F ->
           analyze_dlz_header data
           = Ret (analysis_invalid ("Unknown magic: 0x" ++ format_08X m)))
    /\ (forall m,
           32 <= len data -> le32_at data 0 = Some m ->
           m = 0x0085F41F \/ m = 0x0095365F ->
           exists text,
             analyze_dlz_header data
             = Ret (analysis_valid m (len data)
                      (Z.of_nat (count_occ Byte.byte_eq_dec data xff))
                      text)).
Proof.
  intros data.
  destruct (analyze_dlz_header_cases data)
    as [[Hshort Hres] | [(m & Hlen & Hm & H56 & H3 & Hres)
                        | (m & text & Hlen & Hm & Hknown & Hres & _)]].
  - split; [intros _; exact Hres|]. split; intros; lia.
  - split; [intros; lia|]. split.
    + intros m' _ Hm' _ _. congruence.
    + intros m' _ Hm' [-> | ->]; congruence.
  - split; [intros; lia|]. split.
    + intros m' _ Hm' H56 H3. destruct Hknown; congruence.
    + intros m' _ Hm' _. exists text. congruence.
Qed.

(** Witness: a header with the standard magic and no 0xFF byte, and the
    same length with an unknown magic. *)
Lemma analyze_dlz_header_verdict_witness :
  analyze_dlz_header [x00; x01] = Ret (analysis_invalid "File too small")
  /\ analyze_dlz_header header_unknown
     = Ret (analysis_invalid "Unknown magic: 0x00000000")
  /\ exists text,
       analyze_dlz_header header_v6
       = Ret (analysis_valid 0x0085F41F 32 0 text).
Proof.
  split; [|split].
  - apply (proj1 (analyze_dlz_header_verdict [x00; x01])).
    vm_compute. reflexivity.
  - apply (proj1 (proj2 (analyze_dlz_header_verdict header_unknown)) 0);
      [vm_compute; discriminate | reflexivity | discriminate | discriminate].
  - destruct (analyze_dlz_header_verdict header_v6) as (_ & _ & Hvalid).
    destruct (Hvalid 0x0085F41F) as [text Htext];
      [vm_compute; discriminate | reflexivity | now left |].
    exists text. exact Htext.
Defined.

(** X9: the embedded text, when reported, is the whole run of printable
    bytes (32..126) that begins at the first index [start] of the window
    32 <= start < min(200, len - 4) where four printable bytes start; it
    has at least four characters.  When none is reported, no index of the
    window starts four printable bytes. *)
Theorem analyze_dlz_header_embedded_text :
  forall (data : bytes) (m size ff : Z) (text : option string),
    analyze_dlz_header data = Ret (analysis_valid m size ff text) ->
    match text with
    | Some t =>
        exists start e,
          32 <= start < Z.min 200 (len data - 4)
          /\ start + 4 <= e <= len data
          /\ t = string_of_list_byte (slice data start e)
          /\ String.length t = Z.to_nat (e - start)
          /\ (forall k, start <= k < e -> printable_at data k)
          /\ ~ printable_at data e
          /\ (forall earlier,
                 32 <= earlier < start -> ~ text_starts_at data earlier)
    | None =>
        forall start,
          32 <= start < Z.min 200 (len data - 4) ->
          ~ text_starts_at data start
    end.
Proof.
  intros data m size ff text Hres.
  destruct (analyze_dlz_header_cases data)
    as [[_ H] | [(m' & _ & _ & _ & _ & H)
                | (m' & text' & _ & _ & _ & H & Hscan)]];
    rewrite H in Hres; try discriminate Hres.
  assert (text' = text) by congruence. subst text'.
  destruct (embedded_text_scan data) as (text'' & Hscan' & Hshape).
  rewrite Hscan in Hscan'. apply Ret_inj in Hscan'. subst text''.
  exact Hshape.
Qed.

(** X10: A valid analysis that counts no 0xFF marker means the file
    decompresses to itself. *)
Theorem analysis_without_markers_decompress_id :
  forall (data : bytes) (m size : Z) (text : option string),
    analyze_dlz_header data = Ret (analysis_valid m size 0 text) ->
    decompress_dlz data = Ret data.
Proof.
  intros data m size text Hres.
  destruct (analyze_dlz_header_cases data)
    as [[_ H] | [(m' & _ & _ & _ & _ & H)
                | (m' & text' & _ & _ & _ & H & _)]];
    rewrite H in Hres; try discriminate Hres.
  assert (Hcount : Z.of_nat (count_occ Byte.byte_eq_dec data xff) = 0)
    by congruence.
  assert (Hfree : marker_free data).
  { unfold marker_free. apply (count_occ_not_In Byte.byte_eq_dec). lia. }
  unfold decompress_dlz. rewrite _rle_decompress_spec. cbn [bind].
  rewrite rle_spec_marker_free.
  - rewrite !_byte_swap_spec. now rewrite byteswap_spec_involutive.
  - rewrite _byte_swap_spec. unfold marker_free in *. intros Hin.
    apply Hfree. eapply Permutation_in; [apply byteswap_spec_perm | exact Hin].
Qed.

Lemma decompress_dlz_total (x : bytes) :
  exists out, decompress_dlz x = Ret out.
Proof.
  unfold decompress_dlz. rewrite _rle_decompress_spec. cbn [bind].
  eexists. reflexivity.
Qed.

(** X11: [decompress_file] fails on a missing path, stops after the analysis
    when asked to only analyse, and otherwise writes the decompression of
    the file's content whatever the analysis found (too small, unknown
    magic or valid); on an empty file it raises ZeroDivisionError before
    anything is written. *)
Theorem decompress_file_outcome :
  forall (data : bytes) (analyze_only : bool),
    decompress_file None analyze_only = raised_FileNotFoundError
    /\ decompress_file (Some data) true = analyzed_only
    /\ (data <> [] ->
        exists dl_data,
          decompress_dlz data = Ret dl_data
          /\ decompress_file (Some data) false = written dl_data)
    /\ decompress_file (Some []) false = raised_ZeroDivisionError.
Proof.
  intros data analyze_only.
  assert (Htotal : exists a, analyze_dlz_header data = Ret a).
  { destruct (analyze_dlz_header_cases data)
      as [[_ H] | [(m' & _ & _ & _ & _ & H)
                  | (m' & text' & _ & _ & _ & H & _)]];
      eexists; exact H. }
  destruct Htotal as [a Ha].
  split; [reflexivity|]. split; [unfold decompress_file; now rewrite Ha|].
  split; [|reflexivity].
  intros Hne.
  destruct (decompress_dlz_total data) as [out Hout].
  exists out. split; [exact Hout|].
  unfold decompress_file. rewrite Ha, Hout.
  replace (len data =? 0) with false; [reflexivity|].
  symmetry. apply Z.eqb_neq. destruct data; [contradiction|].
  unfold len. simpl. lia.
Qed.

Lemma analyze_dlz_header_embedded_text_witness :
  exists start e,
    32 <= start < Z.min 200 (len dlz_with_text - 4)
    /\ start + 4 <= e <= len dlz_with_text
    /\ "TUNE1"%string = string_of_list_byte (slice dlz_with_text start e)
    /\ String.length "TUNE1" = Z.to_nat (e - start)
    /\ (forall k, start <= k < e -> printable_at dlz_with_text k)
    /\ ~ printable_at dlz_with_text e
    /\ (forall earlier,
           32 <= earlier < start -> ~ text_starts_at dlz_with_text earlier).
Proof.
  apply (analyze_dlz_header_embedded_text dlz_with_text 0x0085F41F 45 0
           (Some "TUNE1"%string)).
  vm_compute. reflexivity.
Defined.

Lemma analysis_without_markers_decompress_id_witness :
  decompress_dlz dlz_with_text = Ret dlz_with_text.
Proof.
  apply (analysis_without_markers_decompress_id dlz_with_text 0x0085F41F 45
           (Some "TUNE1"%string)).
  vm_compute. reflexivity.
Defined.

Lemma decompress_file_outcome_witness :
  exists dl_data,
    decompress_dlz [xff; x03; x41] = Ret dl_data
    /\ decompress_file (Some [xff; x03; x41]) false = written dl_data.
Proof.
  apply (decompress_file_outcome [xff; x03; x41] false). discriminate.
Defined.

(** * Further properties of format detection and decoding *)

Lemma le32_at_some_bound (buf : bytes) (off v : Z) :
  0 <= off -> le32_at buf off = Some v -> off + 4 <= len buf.
Proof.
  intros Hoff Hv. unfold le32_at in Hv.
  assert (Hl : (4 <= List.length (skipn (Z.to_nat off) buf))%nat).
  { destruct (skipn (Z.to_nat off) buf) as [|a [|b [|c [|d rest]]]];
      try discriminate Hv. simpl. lia. }
  rewrite length_skipn in Hl. unfold len. lia.
Qed.

Lemma float32_at_some_bound (buf : bytes) (off : Z) (v : spec_float) :
  0 <= off -> float32_at buf off = Some v -> off + 4 <= len buf.
Proof.
  intros Hoff Hv. unfold float32_at in Hv.
  destruct (le32_at buf off) as [w|] eqn:Hw; [|discriminate Hv].
  now apply (le32_at_some_bound buf off w).
Qed.

(** One iteration of the heuristic scan returns exactly when its checks
    hold, and then with [search_offset - 16] as data start. *)
Lemma _detect_v5_v6_candidate_checks (buf : bytes) (field_08 off : Z) :
  16 <= off ->
  (forall info,
      _detect_v5_v6_candidate buf field_08 off = Some info ->
      heuristic_checks buf off
      /\ info = {| version := if field_08 >=? 4
                              then ("V" ++ str field_08)%string
                              else "V5/V6"%string;
                   version_field := field_08;
                   magic := MAGIC_V5_V6;
                   floats_per_row := 1030;
                   bytes_per_row := 1030 * 4;
                   data_start := off - 4 * 4;
                   num_rows := (len buf - (off - 4 * 4)) / (1030 * 4);
                   interleaved := true |})
  /\ (heuristic_checks buf off ->
      _detect_v5_v6_candidate buf field_08 off <> None).
Proof.
  intros Hoff. unfold _detect_v5_v6_candidate, heuristic_checks.
  rewrite unpack_f_slice by lia.
  destruct (float32_at buf off) as [val|]; cbn [bind try_pass].
  2:{ split; [discriminate | intros ((val & Hval & _) & _); discriminate]. }
  destruct (int_lt_float 300 val) eqn:Hlo;
    destruct (float_lt_int val 10000) eqn:Hhi; cbn [andb try_pass].
  2-4: split; [discriminate|];
    intros ((val' & Hval & Hlo' & Hhi') & _); injection Hval as <-;
    congruence.
  destruct (Z.ltb_spec ((len buf - (off - 4 * 4)) mod (1030 * 4)) 100)
    as [Hrem | Hrem]; cbn [try_pass].
  2:{ split; [discriminate | intros (_ & ? & _); lia]. }
  rewrite unpack_f_slice by lia.
  destruct (Z.leb_spec (off - 4 * 4 + 66 * 4 + 4) (len buf)) as [Hin | Hout];
    cbn [try_pass].
  2:{ split; [discriminate|]. intros (_ & _ & tps & Htps & _).
      apply float32_at_some_bound in Htps; lia. }
  destruct (float32_at buf (off - 4 * 4 + 66 * 4)) as [tps|];
    cbn [bind try_pass].
  2:{ split; [discriminate | intros (_ & _ & tps & Htps & _); discriminate]. }
  destruct (int_le_float 0 tps) eqn:Htlo;
    destruct (float_le_int tps 100) eqn:Hthi; cbn [andb try_pass].
  2-4: split; [discriminate|];
    intros (_ & _ & tps' & Htps & Htlo' & Hthi'); injection Htps as <-;
    congruence.
  split; [|discriminate].
  intros info Hinfo. injection Hinfo as <-.
  split; [|reflexivity].
  split; [exists val; now repeat split|]. split; [exact Hrem|].
  exists tps. now repeat split.
Qed.

(** How a descriptor comes about: through the legacy scan, the fixed
    Variant C layout, or the heuristic scan. *)
Lemma detect_format_some_cases (buf : bytes) (info : format_info) :
  detect_format buf = Ret (Some info) ->
  32 <= len buf
  /\ exists field_08,
       le32_at buf 8 = Some field_08
       /\ ((le32_at buf 0 = Some MAGIC_V3
            /\ exists k, 0 <= k < 40
                 /\ _detect_v3_candidate buf field_08 (1000 + 100 * k)
                    = Some info
                 /\ forall j, 0 <= j < k ->
                      _detect_v3_candidate buf field_08 (1000 + 100 * j)
                      = None)
           \/ (le32_at buf 0 = Some MAGIC_V5_V6 /\ field_08 = 6
               /\ 16456 + 4120 <= len buf
               /\ (len buf - 16456) mod 4120 < 100
               /\ info = {| version := "V6";
                            version_field := 6;
                            magic := MAGIC_V5_V6;
                            floats_per_row := 1030;
                            bytes_per_row := 4120;
                            data_start := 16456;
                            num_rows := (len buf - 16456) / 4120;
                            interleaved := true |})
           \/ (le32_at buf 0 = Some MAGIC_V5_V6
               /\ field_08 <> 5 /\ field_08 <> 6
               /\ exists k, 0 <= k < 750
                    /\ _detect_v5_v6_candidate buf field_08 (15000 + 4 * k)
                       = Some info
                    /\ forall j, 0 <= j < k ->
                         _detect_v5_v6_candidate buf field_08 (15000 + 4 * j)
                         = None)).
Proof.
  intros Hd.
  destruct (Z.lt_ge_cases (len buf) 32) as [Hshort | Hlen].
  { rewrite detect_format_short in Hd by exact Hshort. discriminate Hd. }
  split; [exact Hlen|].
  destruct (le32_at_in_range buf 0) as [m Hm]; [lia | lia |].
  destruct (detect_format_dispatch buf m Hlen Hm) as (field_08 & Hf & Heq).
  rewrite Heq in Hd. clear Heq. exists field_08. split; [exact Hf|].
  destruct (Z.eqb_spec m MAGIC_V3) as [-> | H3].
  - left. split; [exact Hm|].
    apply Ret_inj in Hd. unfold _detect_v3_format, range in Hd.
    apply for_return_first in Hd. destruct Hd as (k & Hk & Hbody & Hbefore).
    cbn [fst snd V3_DATA_START_RANGE] in Hk, Hbody, Hbefore.
    change (Z.to_nat ((5000 - 1000 + 100 - 1) / 100)) with 40%nat in Hk.
    exists (Z.of_nat k). split; [lia|].
    replace (1000 + 100 * Z.of_nat k) with (1000 + Z.of_nat k * 100) by lia.
    split; [exact Hbody|].
    intros j Hj. specialize (Hbefore (Z.to_nat j)).
    replace (1000 + Z.of_nat (Z.to_nat j) * 100) with (1000 + 100 * j)
      in Hbefore by lia.
    apply Hbefore. lia.
  - destruct (Z.eqb_spec m MAGIC_V5_V6) as [-> | H56]; [|discriminate Hd].
    right.
    destruct (Z.eq_dec field_08 6) as [-> | H6].
    + left. rewrite _detect_v5_v6_format_v6 in Hd.
      destruct (Z.leb_spec (16456 + 4120) (len buf)) as [Hrow | Hrow];
        destruct (Z.ltb_spec ((len buf - 16456) mod 4120) 100)
          as [Hrem | Hrem]; cbn [andb] in Hd; try discriminate Hd.
      apply Ret_inj in Hd. injection Hd as <-. now repeat split.
    + right. unfold _detect_v5_v6_format in Hd.
      replace (field_08 =? VERSION_V6) with false in Hd
        by (symmetry; apply Z.eqb_neq; exact H6).
      destruct (Z.eqb_spec field_08 VERSION_V5) as [H5 | H5];
        [discriminate Hd|].
      split; [exact Hm|]. split; [exact H5|]. split; [exact H6|].
      apply Ret_inj in Hd. unfold _detect_v5_v6_heuristic, range in Hd.
      apply for_return_first in Hd.
      destruct Hd as (k & Hk & Hbody & Hbefore).
      change (Z.to_nat ((18000 - 15000 + 4 - 1) / 4)) with 750%nat in Hk.
      exists (Z.of_nat k). split; [lia|].
      replace (15000 + 4 * Z.of_nat k) with (15000 + Z.of_nat k * 4) by lia.
      split; [exact Hbody|].
      intros j Hj. specialize (Hbefore (Z.to_nat j)).
      replace (15000 + Z.of_nat (Z.to_nat j) * 4) with (15000 + 4 * j)
        in Hbefore by lia.
      apply Hbefore. lia.
Qed.

Lemma init_ret (name : string) (buf : bytes) (self : UniversalDLParser) :
  __init__ name buf = Ret self ->
  dl_data self = buf
  /\ dl_path_name self = name
  /\ detect_format buf = Ret (Some (self_format_info self)).
Proof.
  unfold __init__. intros Hinit.
  destruct (detect_format buf) as [[info|] | e |];
    cbn [bind] in Hinit; try discriminate Hinit.
  apply Ret_inj in Hinit. subst self. now repeat split.
Qed.

(** X12: every descriptor repeats the two header fields it was decided on and
    is one of two kinds: legacy (516 contiguous floats per row, labelled
    V3) or standard (1030 floats per row, interleaved, never with version
    indicator 5, labelled by the indicator). *)
Theorem descriptor_mirrors_header :
  forall (buf : bytes) (info : format_info),
    detect_format buf = Ret (Some info) ->
    le32_at buf 0 = Some (magic info)
    /\ le32_at buf 8 = Some (version_field info)
    /\ bytes_per_row info = floats_per_row info * 4
    /\ ((magic info = 0x0095365F
         /\ version info = "V3"%string
         /\ floats_per_row info = 516
         /\ interleaved info = false)
        \/ (magic info = 0x0085F41F
            /\ version_field info <> 5
            /\ version info
               = (if version_field info =? 6 then "V6"%string
                  else if version_field info >=? 4
                       then ("V" ++ str (version_field info))%string
                       else "V5/V6"%string)
            /\ floats_per_row info = 1030
            /\ interleaved info = true)).
Proof.
  intros buf info Hd.
  destruct (detect_format_some_cases buf info Hd)
    as (_ & field_08 & Hf
        & [(Hm & k & Hk & Hbody & _)
          | [(Hm & -> & _ & _ & ->)
            | (Hm & H5 & H6 & k & Hk & Hbody & _)]]).
  - unfold _detect_v3_candidate in Hbody.
    destruct (_ <? 100); [|discriminate Hbody].
    destruct (unpack_f _) as [val | e |]; cbn [bind try_pass] in Hbody;
      try discriminate Hbody.
    destruct (_ && _); cbn [try_pass] in Hbody; [|discriminate Hbody].
    injection Hbody as <-. cbn.
    split; [exact Hm|]. split; [exact Hf|]. split; [reflexivity|].
    left. now repeat split.
  - cbn. split; [exact Hm|]. split; [exact Hf|]. split; [reflexivity|].
    right. repeat split. discriminate.
  - destruct (_detect_v5_v6_candidate_checks buf field_08 (15000 + 4 * k))
      as [Hsome _]; [lia|].
    destruct (Hsome info Hbody) as (_ & ->). cbn.
    split; [exact Hm|]. split; [exact Hf|]. split; [reflexivity|].
    right. split; [reflexivity|]. split; [exact H5|].
    split; [|now split].
    now replace (field_08 =? 6) with false
      by (symmetry; apply Z.eqb_neq; exact H6).
Qed.

Lemma descriptor_mirrors_header_witness :
  le32_at (zero_padded header_v3 (1200 + 2064)) 8 = Some 3.
Proof.
  destruct (descriptor_mirrors_header
              (zero_padded header_v3 (1200 + 2064))
              {| version := "V3"; version_field := 3;
                 magic := MAGIC_V3; floats_per_row := 516;
                 bytes_per_row := 2064; data_start := 1200;
                 num_rows := 1; interleaved := false |})
    as (_ & Hf & _).
  - vm_compute. reflexivity.
  - exact Hf.
Defined.

(** X13: the rows a descriptor announces lie inside the buffer, and fewer than
    100 bytes follow them; the row count is never negative.  A legacy
    descriptor starts its data between 1000 and 4900 in a buffer of at
    least 1044 bytes, a standard one between 14984 and 17980 in a buffer
    of at least 15252 bytes. *)
Theorem detected_rows_fit_buffer :
  forall (buf : bytes) (info : format_info),
    detect_format buf = Ret (Some info) ->
    0 <= num_rows info
    /\ data_start info + num_rows info * bytes_per_row info <= len buf
    /\ len buf < data_start info + num_rows info * bytes_per_row info + 100
    /\ (interleaved info = false ->
        1000 <= data_start info <= 4900 /\ 1044 <= len buf)
    /\ (interleaved info = true ->
        14984 <= data_start info <= 17980 /\ 15252 <= len buf).
Proof.
  intros buf info Hd.
  destruct (detect_format_some_cases buf info Hd)
    as (_ & field_08 & Hf
        & [(Hm & k & Hk & Hbody & _)
          | [(Hm & -> & Hrow & Hrem & ->)
            | (Hm & H5 & H6 & k & Hk & Hbody & _)]]).
  - destruct (_detect_v3_candidate_checks buf field_08 (1000 + 100 * k))
      as [Hsome _]; [lia|].
    destruct (Hsome info Hbody)
      as ((Hrem & val & Hval & _) & Hds & Hnr & _ & Hbpr & Hil).
    apply float32_at_some_bound in Hval; [|lia].
    rewrite Hds, Hnr, Hbpr, Hil.
    pose proof (Z.div_mod (len buf - (1000 + 100 * k)) (516 * 4)
                  ltac:(lia)) as Hdm.
    pose proof (Z.mod_pos_bound (len buf - (1000 + 100 * k)) (516 * 4)
                  ltac:(lia)) as Hmb.
    assert (0 <= (len buf - (1000 + 100 * k)) / (516 * 4))
      by (apply Z.div_pos; lia).
    change (516 * 4) with 2064 in *.
    split; [lia|]. split; [lia|]. split; [lia|].
    split; intros Hi; try discriminate Hi; lia.
  - cbn [num_rows data_start bytes_per_row interleaved].
    pose proof (Z.div_mod (len buf - 16456) 4120 ltac:(lia)) as Hdm.
    pose proof (Z.mod_pos_bound (len buf - 16456) 4120 ltac:(lia)) as Hmb.
    assert (0 <= (len buf - 16456) / 4120) by (apply Z.div_pos; lia).
    split; [lia|]. split; [lia|]. split; [lia|].
    split; intros Hi; try discriminate Hi; lia.
  - destruct (_detect_v5_v6_candidate_checks buf field_08 (15000 + 4 * k))
      as [Hsome _]; [lia|].
    destruct (Hsome info Hbody) as ((_ & Hrem & tps & Htps & _) & ->).
    apply float32_at_some_bound in Htps; [|lia].
    cbn [num_rows data_start bytes_per_row interleaved].
    pose proof (Z.div_mod (len buf - (15000 + 4 * k - 4 * 4)) (1030 * 4)
                  ltac:(lia)) as Hdm.
    pose proof (Z.mod_pos_bound (len buf - (15000 + 4 * k - 4 * 4))
                  (1030 * 4) ltac:(lia)) as Hmb.
    assert (0 <= (len buf - (15000 + 4 * k - 4 * 4)) / (1030 * 4))
      by (apply Z.div_pos; lia).
    change (1030 * 4) with 4120 in *. change (4 * 4) with 16 in *.
    split; [lia|]. split; [lia|]. split; [lia|].
    split; intros Hi; try discriminate Hi; lia.
Qed.

Lemma detected_rows_fit_buffer_witness :
  1000 <= 1200 <= 4900 /\ 1044 <= len (zero_padded header_v3 (1200 + 2064)).
Proof.
  destruct (detected_rows_fit_buffer
              (zero_padded header_v3 (1200 + 2064))
              {| version := "V3"; version_field := 3;
                 magic := MAGIC_V3; floats_per_row := 516;
                 bytes_per_row := 2064; data_start := 1200;
                 num_rows := 1; interleaved := false |})
    as (_ & _ & _ & Hlegacy & _).
  - vm_compute. reflexivity.
  - apply Hlegacy. reflexivity.
Defined.

(** X14: for the standard magic with a version indicator other than 5 and 6,
    detection raises nothing; any descriptor it returns starts its data 16
    bytes before the lowest search offset of the window 15000, 15004, ...,
    17996 that passes the heuristic checks, is labelled "V<indicator>" from
    indicator 4 on and "V5/V6" below, and a descriptor is returned
    whenever some search offset passes. *)
Theorem heuristic_lowest_offset_wins :
  forall (buf : bytes) (field_08 : Z),
    32 <= len buf ->
    le32_at buf 0 = Some 0x0085F41F ->
    le32_at buf 8 = Some field_08 ->
    field_08 <> 5 -> field_08 <> 6 ->
    (exists result, detect_format buf = Ret result)
    /\ (forall info,
           detect_format buf = Ret (Some info) ->
           exists search_offset,
             heuristic_window search_offset
             /\ heuristic_checks buf search_offset
             /\ (forall lower,
                    heuristic_window lower -> heuristic_checks buf lower ->
                    search_offset <= lower)
             /\ data_start info = search_offset - 16
             /\ num_rows info = (len buf - (search_offset - 16)) / 4120
             /\ version info
                = (if field_08 >=? 4 then ("V" ++ str field_08)%string
                   else "V5/V6"%string))
    /\ ((exists search_offset,
            heuristic_window search_offset
            /\ heuristic_checks buf search_offset) ->
        exists info, detect_format buf = Ret (Some info)).
Proof.
  intros buf field_08 Hlen Hm Hf H5 H6.
  assert (Hd : detect_format buf
               = Ret (_detect_v5_v6_heuristic buf field_08)).
  { rewrite (detect_format_standard buf field_08 Hlen Hm Hf).
    unfold _detect_v5_v6_format.
    replace (field_08 =? VERSION_V6) with false
      by (symmetry; apply Z.eqb_neq; exact H6).
    now replace (field_08 =? VERSION_V5) with false
      by (symmetry; apply Z.eqb_neq; exact H5). }
  split; [eexists; exact Hd|]. split.
  - intros info Hinfo.
    destruct (detect_format_some_cases buf info Hinfo)
      as (_ & f & Hf'
          & [(Hm' & _) | [(_ & -> & _) | (_ & _ & _ & k & Hk & Hbody & Hbefore)]]).
    + rewrite Hm in Hm'. discriminate Hm'.
    + rewrite Hf in Hf'. injection Hf' as ->. contradiction.
    + rewrite Hf in Hf'. injection Hf' as <-.
      destruct (_detect_v5_v6_candidate_checks buf field_08 (15000 + 4 * k))
        as [Hsome _]; [lia|].
      destruct (Hsome info Hbody) as (Hchk & ->).
      exists (15000 + 4 * k). split; [now exists k|]. split; [exact Hchk|].
      split; [|now repeat split].
      intros lower (j & Hj & ->) Hlower.
      destruct (Z.le_gt_cases k j) as [Hle | Hgt]; [lia|]. exfalso.
      destruct (_detect_v5_v6_candidate_checks buf field_08 (15000 + 4 * j))
        as [_ Hnone]; [lia|].
      apply (Hnone Hlower). apply Hbefore. lia.
  - intros (so & (j & Hj & ->) & Hchk). rewrite Hd.
    destruct (_detect_v5_v6_heuristic buf field_08) as [info|] eqn:Hscan.
    + now exists info.
    + exfalso. revert Hscan. unfold _detect_v5_v6_heuristic, range.
      change (Z.to_nat ((18000 - 15000 + 4 - 1) / 4)) with 750%nat.
      apply (for_return_some _ _ 750 0 (Z.to_nat j)); [lia|].
      destruct (_detect_v5_v6_candidate_checks buf field_08
                  (15000 + Z.of_nat (Z.to_nat j) * 4)) as [_ Hnone]; [lia|].
      apply Hnone.
      replace (15000 + Z.of_nat (Z.to_nat j) * 4) with (15000 + 4 * j)
        by lia.
      exact Hchk.
Qed.


(** Witness: the float 2500.0 at offset 15000 is the first hit of the
    scan, so the data start is 14984. *)
Lemma heuristic_lowest_offset_wins_witness :
  exists search_offset,
    heuristic_window search_offset
    /\ heuristic_checks heuristic_sample search_offset
    /\ 14984 = search_offset - 16.
Proof.
  destruct (heuristic_lowest_offset_wins heuristic_sample 4)
    as (_ & Hleast & _).
  - vm_compute. discriminate.
  - vm_compute. reflexivity.
  - vm_compute. reflexivity.
  - discriminate.
  - discriminate.
  - destruct (Hleast {| version := "V4"; version_field := 4;
                        magic := MAGIC_V5_V6; floats_per_row := 1030;
                        bytes_per_row := 4120; data_start := 14984;
                        num_rows := 1; interleaved := true |})
      as (so & Hwin & Hchk & _ & Hds & _).
    + vm_compute. reflexivity.
    + exists so. split; [exact Hwin|]. split; [exact Hchk|]. exact Hds.
Defined.

(** ** Tables of accepted files *)

(** What the decoder needs to know of a detected descriptor: where the
    data starts, the stride of its kind, and that its rows fit. *)
Lemma detect_format_layout (buf : bytes) (info : format_info) :
  detect_format buf = Ret (Some info) ->
  0 <= data_start info
  /\ 0 <= num_rows info
  /\ data_start info + num_rows info * bytes_per_row info <= len buf
  /\ ((interleaved info = false /\ bytes_per_row info = 2064)
      \/ (interleaved info = true /\ bytes_per_row info = 4120)).
Proof.
  intros Hd.
  destruct (detect_format_some_cases buf info Hd)
    as (_ & field_08 & _
        & [(_ & k & Hk & Hbody & _)
          | [(_ & _ & Hrow & _ & ->)
            | (_ & _ & _ & k & Hk & Hbody & _)]]).
  - destruct (_detect_v3_candidate_checks buf field_08 (1000 + 100 * k))
      as [Hsome _]; [lia|].
    destruct (Hsome info Hbody)
      as ((_ & val & Hval & _) & Hds & Hnr & _ & Hbpr & Hil).
    apply float32_at_some_bound in Hval; [|lia].
    rewrite Hds, Hnr, Hbpr, Hil. change (516 * 4) with 2064.
    pose proof (Z.div_mod (len buf - (1000 + 100 * k)) 2064 ltac:(lia)).
    pose proof (Z.mod_pos_bound (len buf - (1000 + 100 * k)) 2064
                  ltac:(lia)).
    assert (0 <= (len buf - (1000 + 100 * k)) / 2064)
      by (apply Z.div_pos; lia).
    split; [lia|]. split; [lia|]. split; [lia|]. left. now split.
  - cbn [num_rows data_start bytes_per_row interleaved].
    pose proof (Z.div_mod (len buf - 16456) 4120 ltac:(lia)).
    pose proof (Z.mod_pos_bound (len buf - 16456) 4120 ltac:(lia)).
    assert (0 <= (len buf - 16456) / 4120) by (apply Z.div_pos; lia).
    split; [lia|]. split; [lia|]. split; [lia|]. right. now split.
  - destruct (_detect_v5_v6_candidate_checks buf field_08 (15000 + 4 * k))
      as [Hsome _]; [lia|].
    destruct (Hsome info Hbody) as ((_ & _ & tps & Htps & _) & ->).
    apply float32_at_some_bound in Htps; [|lia].
    cbn [num_rows data_start bytes_per_row interleaved].
    change (1030 * 4) with 4120 in *. change (4 * 4) with 16 in *.
    pose proof (Z.div_mod (len buf - (15000 + 4 * k - 16)) 4120 ltac:(lia)).
    pose proof (Z.mod_pos_bound (len buf - (15000 + 4 * k - 16)) 4120
                  ltac:(lia)).
    assert (0 <= (len buf - (15000 + 4 * k - 16)) / 4120)
      by (apply Z.div_pos; lia).
    split; [lia|]. split; [lia|]. split; [lia|]. right. now split.
Qed.

Lemma table_of_shape (buf : bytes) (data_start bytes_per_row num_rows : Z)
    (pos : Z -> Z) (columns : Z) :
  let df := table_of buf data_start bytes_per_row num_rows pos columns in
  List.length df = Z.to_nat columns
  /\ map fst df = map col_name (range 0 columns 1)
  /\ NoDup (map fst df)
  /\ (forall name col, In (name, col) df ->
        List.length col = Z.to_nat num_rows).
Proof.
  unfold table_of. cbv zeta.
  assert (Hnames : map fst
                     (map (fun c =>
                             (col_name c,
                              map (fun r => cell_at buf
                                              (data_start + r * bytes_per_row
                                               + pos c * 4))
                                  (range 0 num_rows 1)))
                          (range 0 columns 1))
                   = map col_name (range 0 columns 1)).
  { rewrite map_map. reflexivity. }
  split.
  { rewrite length_map, range_0_1, length_map, length_seq. reflexivity. }
  split; [exact Hnames|]. split.
  { rewrite Hnames. apply col_names_nodup. }
  intros name col Hin. apply in_map_iff in Hin. destruct Hin as (c & Heq & _).
  injection Heq as _ <-.
  rewrite length_map, range_0_1, length_map, length_seq. reflexivity.
Qed.

(** X16: for every file the constructor accepts, [parse] returns a table of
    exactly 516 columns named Param_000 to Param_515, in that order and
    without repetition, each with row_count entries. *)
Theorem accepted_file_table_shape :
  forall (name : string) (buf : bytes) (self : UniversalDLParser),
    __init__ name buf = Ret self ->
    exists df,
      parse self = Ret df
      /\ parse_file name buf = Ret df
      /\ List.length df = 516%nat
      /\ map fst df = map col_name (range 0 516 1)
      /\ NoDup (map fst df)
      /\ (forall col_name col,
             In (col_name, col) df ->
             List.length col = Z.to_nat (num_rows (self_format_info self))).
Proof.
  intros name buf self Hinit.
  destruct (init_ret name buf self Hinit) as (_ & _ & Hd).
  destruct (detect_format_layout buf _ Hd) as (Hds & _ & _ & Hkind).
  assert (Hcols : (if interleaved (self_format_info self) then 516
                   else bytes_per_row (self_format_info self) / 4) = 516).
  { destruct Hkind as [(-> & ->) | (-> & _)]; reflexivity. }
  assert (Hparse : parse self
                   = Ret (table_of (dl_data self)
                            (data_start (self_format_info self))
                            (bytes_per_row (self_format_info self))
                            (num_rows (self_format_info self))
                            (fun c => if interleaved (self_format_info self)
                                      then c * 2 else c)
                            516)).
  { rewrite <- Hcols. apply parse_table; [exact Hds|].
    destruct Hkind as [(_ & ->) | (_ & ->)]; lia. }
  eexists. split; [exact Hparse|].
  split; [unfold parse_file; rewrite Hinit; exact Hparse|].
  apply table_of_shape.
Qed.

Lemma accepted_file_table_shape_witness :
  exists df,
    parse_file "run.V6.dl" (zero_padded header_v6 (16456 + 2 * 4120)) = Ret df
    /\ List.length df = 516%nat.
Proof.
  destruct (accepted_file_table_shape "run.V6.dl"
              (zero_padded header_v6 (16456 + 2 * 4120)) two_rows_v6)
    as (df & _ & Hfile & Hlen & _).
  - unfold __init__.
    replace (detect_format (zero_padded header_v6 (16456 + 2 * 4120)))
      with (Ret (Some (self_format_info two_rows_v6)))
      by (vm_compute; reflexivity).
    reflexivity.
  - exists df. now split.
Defined.

(** X17: in the table of an accepted file no cell is missing, except possibly
    the one cell of the last row in slot 515 of an interleaved file: every
    other cell is the float stored at its byte offset.  That last cell is
    missing when fewer than four bytes follow the last row. *)
Theorem accepted_file_cells_present :
  forall (name : string) (buf : bytes) (self : UniversalDLParser),
    __init__ name buf = Ret self ->
    let info := self_format_info self in
    exists df,
      parse self = Ret df
      /\ (forall r c,
             0 <= r < num_rows info -> 0 <= c < 516 ->
             interleaved info = false \/ r < num_rows info - 1 \/ c < 515 ->
             exists value,
               float32_at buf
                 (data_start info + r * bytes_per_row info
                  + (if interleaved info then c * 2 else c) * 4)
               = Some value
               /\ df_cell df r c = Some value)
      /\ (interleaved info = true -> 0 < num_rows info ->
          len buf < data_start info
                    + num_rows info * bytes_per_row info + 4 ->
          df_cell df (num_rows info - 1) 515 = Some np_nan).
Proof.
  intros name buf self Hinit info.
  destruct (init_ret name buf self Hinit) as (Hbuf & _ & Hd).
  fold info in Hd.
  destruct (detect_format_layout buf _ Hd) as (Hds & Hnr & Hfit & Hkind).
  assert (Hcols : (if interleaved info then 516 else bytes_per_row info / 4)
                  = 516).
  { destruct Hkind as [(-> & ->) | (-> & _)]; reflexivity. }
  assert (Hparse : parse self
                   = Ret (table_of buf (data_start info)
                            (bytes_per_row info) (num_rows info)
                            (fun c => if interleaved info then c * 2 else c)
                            516)).
  { rewrite <- Hcols. rewrite <- Hbuf. apply parse_table; fold info.
    - exact Hds.
    - destruct Hkind as [(_ & ->) | (_ & ->)]; lia. }
  eexists. split; [exact Hparse|]. split.
  - intros r c Hr Hc Hwhere. rewrite table_of_cell by lia.
    assert (Hoff : 0 <= data_start info + r * bytes_per_row info
                        + (if interleaved info then c * 2 else c) * 4).
    { destruct Hkind as [(-> & ->) | (-> & ->)]; lia. }
    assert (Hin : data_start info + r * bytes_per_row info
                  + (if interleaved info then c * 2 else c) * 4 + 4
                  <= len buf).
    { destruct Hkind as [(Hil & Hb) | (Hil & Hb)]; rewrite Hil, Hb in *.
      - nia.
      - destruct Hwhere as [Hw | [Hw | Hw]]; [discriminate Hw | nia | nia]. }
    destruct (cell_at_present buf _ Hoff Hin) as (v & Hv & ->).
    exists v. now split.
  - intros Hil Hrows Hshort. rewrite table_of_cell by lia.
    rewrite cell_at_missing; [reflexivity|].
    destruct Hkind as [(Hil' & _) | (_ & Hb)]; [congruence|].
    rewrite Hil, Hb in *. lia.
Qed.

Lemma accepted_file_cells_present_witness :
  exists df,
    parse two_rows_v6 = Ret df
    /\ df_cell df 0 515 = Some (S754_zero false)
    /\ df_cell df 1 515 = Some np_nan.
Proof.
  destruct (accepted_file_cells_present "run.V6.dl"
              (zero_padded header_v6 (16456 + 2 * 4120)) two_rows_v6)
    as (df & Hdf & Hpresent & Hlast).
  - unfold __init__.
    replace (detect_format (zero_padded header_v6 (16456 + 2 * 4120)))
      with (Ret (Some (self_format_info two_rows_v6)))
      by (vm_compute; reflexivity).
    reflexivity.
  - exists df. split; [exact Hdf|]. split.
    + destruct (Hpresent 0 515) as (v & Hv & Hc);
        [cbn; lia | lia | right; left; cbn; lia |].
      rewrite Hc. f_equal.
      assert (Hz : float32_at (zero_padded header_v6 (16456 + 2 * 4120))
                     (data_start (self_format_info two_rows_v6)
                      + 0 * bytes_per_row (self_format_info two_rows_v6)
                      + (if interleaved (self_format_info two_rows_v6)
                         then 515 * 2 else 515) * 4)
                   = Some (S754_zero false))
        by (vm_compute; reflexivity).
      rewrite Hz in Hv. now injection Hv.
    + apply Hlast; [reflexivity | cbn; lia | vm_compute; reflexivity].
Defined.

(** * The identifier fields of a CAN message *)

Lemma can_fields_arith (m : CAN.CANMessage) :
  let id := CAN.arbitration_id m in
  CAN.ecu_serial m = id mod 2048
  /\ CAN.source_id m = (id / 2048) mod 8
  /\ CAN.channel_index m = (id / 16384) mod 2048
  /\ CAN.target_id m = (id / 33554432) mod 8
  /\ CAN.command_bit m = (id / 268435456) mod 2.
Proof.
  cbv zeta.
  unfold CAN.ecu_serial, CAN.source_id, CAN.channel_index, CAN.target_id,
    CAN.command_bit, CAN.SERIAL_MASK, CAN.SOURCE_ID_MASK, CAN.CHANNEL_MASK.
  rewrite !Z.shiftr_land.
  change (Z.shiftr 0x3800 11) with (Z.ones 3).
  change (Z.shiftr 0x1FFC000 14) with (Z.ones 11).
  change 0x7FF with (Z.ones 11). change 0x7 with (Z.ones 3).
  change 0x1 with (Z.ones 1).
  rewrite !Z.land_ones by lia. rewrite !Z.shiftr_div_pow2 by lia.
  repeat split.
Qed.

(** X18: the five fields cut a 29-bit identifier into disjoint ranges of bits
    and together give it back: serial in bits 10..0, source in 13..11,
    channel in 24..14, target in 27..25, command in bit 28.  Each field is
    within its width for every identifier. *)
Theorem can_id_fields_recompose :
  forall m : CAN.CANMessage,
    (0 <= CAN.ecu_serial m < 2048
     /\ 0 <= CAN.source_id m < 8
     /\ 0 <= CAN.channel_index m < 2048
     /\ 0 <= CAN.target_id m < 8
     /\ 0 <= CAN.command_bit m < 2)
    /\ (0 <= CAN.arbitration_id m < 2 ^ 29 ->
        CAN.arbitration_id m
        = CAN.ecu_serial m
          + 2 ^ 11 * CAN.source_id m
          + 2 ^ 14 * CAN.channel_index m
          + 2 ^ 25 * CAN.target_id m
          + 2 ^ 28 * CAN.command_bit m).
Proof.
  intros m.
  destruct (can_fields_arith m) as (-> & -> & -> & -> & ->).
  change (2 ^ 29) with 536870912. change (2 ^ 11) with 2048.
  change (2 ^ 14) with 16384. change (2 ^ 25) with 33554432.
  change (2 ^ 28) with 268435456.
  generalize (CAN.arbitration_id m). intros id.
  split.
  - repeat split; try (apply Z.mod_pos_bound; lia).
  - intros Hid. Z.div_mod_to_equations. lia.
Qed.

Lemma can_id_fields_recompose_witness :
  0x1E005123
  = CAN.ecu_serial {| CAN.timestamp := S754_zero false;
                      CAN.arbitration_id := 0x1E005123;
                      CAN.data := []; CAN.is_extended := true |}
    + 2 ^ 11 * CAN.source_id {| CAN.timestamp := S754_zero false;
                                CAN.arbitration_id := 0x1E005123;
                                CAN.data := []; CAN.is_extended := true |}
    + 2 ^ 14 * CAN.channel_index {| CAN.timestamp := S754_zero false;
                                    CAN.arbitration_id := 0x1E005123;
                                    CAN.data := []; CAN.is_extended := true |}
    + 2 ^ 25 * CAN.target_id {| CAN.timestamp := S754_zero false;
                                CAN.arbitration_id := 0x1E005123;
                                CAN.data := []; CAN.is_extended := true |}
    + 2 ^ 28 * CAN.command_bit {| CAN.timestamp := S754_zero false;
                                  CAN.arbitration_id := 0x1E005123;
                                  CAN.data := []; CAN.is_extended := true |}.
Proof.
  apply (proj2 (can_id_fields_recompose
                  {| CAN.timestamp := S754_zero false;
                     CAN.arbitration_id := 0x1E005123;
                     CAN.data := []; CAN.is_extended := true |})).
  cbn. lia.
Defined.

Lemma can_base_serial_split (id : Z) :
  Z.land id CAN.HOLLEY_MASK + Z.land id CAN.SERIAL_MASK = id mod 2 ^ 32
  /\ Z.land (Z.land id CAN.HOLLEY_MASK) (Z.land id CAN.SERIAL_MASK) = 0.
Proof.
  assert (Hdisj : Z.land (Z.land id CAN.HOLLEY_MASK)
                         (Z.land id CAN.SERIAL_MASK) = 0).
  { rewrite Z.land_assoc, (Z.land_comm (Z.land id CAN.HOLLEY_MASK) id),
      Z.land_assoc, Z.land_diag, <- Z.land_assoc.
    change (Z.land CAN.HOLLEY_MASK CAN.SERIAL_MASK) with 0.
    apply Z.land_0_r. }
  split; [|exact Hdisj].
  rewrite <- Z.add_lor_land, Hdisj, Z.add_0_r, <- Z.land_lor_distr_r.
  change (Z.lor CAN.HOLLEY_MASK CAN.SERIAL_MASK) with (Z.ones 32).
  apply Z.land_ones. lia.
Qed.

(** X19: the base id and the ECU serial split an identifier of up to 32 bits:
    they share no bit, the base id has its low 11 bits clear, and their sum
    is the identifier (the identifier modulo 2^32 in general: bits from 32
    on are dropped by the mask).  Source id and channel index can be read
    from the base id alone. *)
Theorem can_base_id_and_serial :
  forall m : CAN.CANMessage,
    CAN.base_id m + CAN.ecu_serial m = CAN.arbitration_id m mod 2 ^ 32
    /\ Z.land (CAN.base_id m) (CAN.ecu_serial m) = 0
    /\ CAN.base_id m mod 2048 = 0
    /\ (0 <= CAN.arbitration_id m < 2 ^ 32 ->
        CAN.base_id m + CAN.ecu_serial m = CAN.arbitration_id m
        /\ CAN.base_id m = 2048 * (CAN.arbitration_id m / 2048)).
Proof.
  intros m. unfold CAN.base_id, CAN.ecu_serial.
  destruct (can_base_serial_split (CAN.arbitration_id m)) as [Hsum Hdisj].
  assert (Hlow : Z.land (CAN.arbitration_id m) CAN.HOLLEY_MASK mod 2048 = 0).
  { change 2048 with (2 ^ 11). rewrite <- Z.land_ones by lia.
    rewrite <- Z.land_assoc.
    change (Z.land CAN.HOLLEY_MASK (Z.ones 11)) with 0. apply Z.land_0_r. }
  split; [exact Hsum|]. split; [exact Hdisj|]. split; [exact Hlow|].
  intros Hid. rewrite Z.mod_small in Hsum by lia. split; [exact Hsum|].
  assert (Hser : Z.land (CAN.arbitration_id m) CAN.SERIAL_MASK
                 = CAN.arbitration_id m mod 2048).
  { change CAN.SERIAL_MASK with (Z.ones 11). apply Z.land_ones. lia. }
  rewrite Hser in Hsum.
  pose proof (Z.div_mod (CAN.arbitration_id m) 2048 ltac:(lia)). lia.
Qed.

Lemma can_base_id_and_serial_witness :
  CAN.base_id {| CAN.timestamp := S754_zero false;
                 CAN.arbitration_id := 0x9E005123;
                 CAN.data := []; CAN.is_extended := true |}
  + CAN.ecu_serial {| CAN.timestamp := S754_zero false;
                      CAN.arbitration_id := 0x9E005123;
                      CAN.data := []; CAN.is_extended := true |}
  = 0x9E005123.
Proof.
  apply (can_base_id_and_serial
           {| CAN.timestamp := S754_zero false;
              CAN.arbitration_id := 0x9E005123;
              CAN.data := []; CAN.is_extended := true |}).
  cbn. lia.
Defined.

(** X20: [parse_message] drops a message exactly when a serial is configured
    and its low 11 bits differ from the message's serial field; the
    configured serial matters only through those 11 bits.  A message that
    passes is returned with its identifier, serial and channel copied. *)
Theorem parse_message_serial_filter :
  forall (parser : CAN.HolleyCANParser) (raw : CAN.CANMessage),
    (CAN.parse_message parser raw = None <->
     exists serial,
       CAN.self_ecu_serial parser = Some serial
       /\ serial mod 2048 <> CAN.arbitration_id raw mod 2048)
    /\ (forall decoded,
           CAN.parse_message parser raw = Some decoded ->
           CAN.msg_arbitration_id decoded = CAN.arbitration_id raw
           /\ CAN.msg_ecu_serial decoded = CAN.arbitration_id raw mod 2048
           /\ CAN.msg_channel_index decoded = CAN.channel_index raw
           /\ CAN.msg_timestamp decoded = CAN.timestamp raw).
Proof.
  intros parser raw.
  assert (Hser : CAN.ecu_serial raw = CAN.arbitration_id raw mod 2048)
    by apply (can_fields_arith raw).
  assert (Hlow : forall serial, Z.land serial 0x7FF = serial mod 2048).
  { intros serial. change 0x7FF with (Z.ones 11). apply Z.land_ones. lia. }
  unfold CAN.parse_message.
  destruct (CAN.self_ecu_serial parser) as [serial|].
  - rewrite Hlow, Hser.
    destruct (Z.eqb_spec (CAN.arbitration_id raw mod 2048) (serial mod 2048))
      as [Heq | Hne]; cbn [negb].
    + split.
      * split.
        -- destruct (CAN.dbc_db parser) as [db|];
             [destruct (db _ _) as [[? ?]|]|]; discriminate.
        -- intros (s & Hs & Hdiff). injection Hs as <-. congruence.
      * intros decoded Hdec.
        destruct (CAN.dbc_db parser) as [db|];
          [destruct (db _ _) as [[? ?]|]|];
          injection Hdec as <-; cbn; now rewrite ?Hser.
    + split.
      * split; [|reflexivity]. intros _. exists serial. split; congruence.
      * intros decoded Hdec. discriminate Hdec.
  - split.
    + split.
      * destruct (CAN.dbc_db parser) as [db|];
          [destruct (db _ _) as [[? ?]|]|]; discriminate.
      * intros (s & Hs & _). discriminate Hs.
    + intros decoded Hdec.
      destruct (CAN.dbc_db parser) as [db|];
        [destruct (db _ _) as [[? ?]|]|];
        injection Hdec as <-; cbn; now rewrite ?Hser.
Qed.

Lemma parse_message_serial_filter_witness :
  exists decoded,
    CAN.parse_message sample_can_parser sample_can_message = Some decoded
    /\ CAN.msg_ecu_serial decoded = 0x123
    /\ CAN.message_name decoded = "UNKNOWN_0x1E005000"%string.
Proof.
  destruct (CAN.parse_message sample_can_parser sample_can_message)
    as [decoded|] eqn:Hdec.
  - exists decoded. split; [reflexivity|].
    destruct (proj2 (parse_message_serial_filter sample_can_parser
                       sample_can_message) decoded Hdec)
      as (_ & Hserial & _).
    split; [exact Hserial|].
    vm_compute in Hdec. injection Hdec as <-. reflexivity.
  - vm_compute in Hdec. discriminate Hdec.
Defined.
